(** * Sleep-quotes MCP: the caching fallback client and the quote provider

    A shallow embedding of [remote_client.py] (class [RemoteSleepQuotesClient])
    and of the selection functions of [sleep_advice_server.py] (class
    [SleepQuotesDatabase]), with the properties of the written specification
    stated and settled against them.

    Conventions of the embedding.
    - Python values that travel through the client (decoded JSON bodies and the
      dictionaries the client returns) are terms of [value]; a dictionary is an
      association list in insertion order.
    - A method of the client is a computation in the monad [M]: it reads the
      outside world (the network and the clock), updates the client object and
      records every HTTP request it issues; it ends with a value or with a
      raised exception.
    - Time stamps are epoch seconds, as integers: of [datetime.timestamp()]
      only differences and their comparison with the TTL are used.            *)

From Stdlib Require Import ZArith Ascii String DecimalString List.
From stdpp Require Import base option gmap strings list.

Local Open Scope string_scope.
Set Warnings "-register-all".

(* ===================================================================== *)
(** ** Python values                                                      *)
(* ===================================================================== *)

Inductive value : Type :=
| VNone
| VBool (b : bool)
| VInt (z : Z)
| VStr (s : string)
| VList (l : list value)
| VDict (d : list (string * value)).

Inductive exn : Type :=
| KeyError | TypeError | AttributeError | IndexError | ClientError.

Inductive res (A : Type) : Type :=
| Val (a : A)
| Raise (e : exn).
Arguments Val {A} a.
Arguments Raise {A} e.

#[global] Instance res_ret : MRet res := fun A a => Val a.
#[global] Instance res_bind : MBind res := fun A B f r =>
  match r with
  | Val a => f a
  | Raise e => Raise e
  end.

(** Lookup of a key in a dictionary. *)
Fixpoint dict_lookup (k : string) (d : list (string * value)) : option value :=
  match d with
  | [] => None
  | (k', v) :: d' => if String.eqb k k' then Some v else dict_lookup k d'
  end.

(** [bool(v)]: the truth value Python gives [v] in a condition. *)
Definition truthy (v : value) : bool :=
  match v with
  | VNone => false
  | VBool b => b
  | VInt z => negb (z =? 0)%Z
  | VStr s => negb (String.eqb s EmptyString)
  | VList l => match l with [] => false | _ => true end
  | VDict d => match d with [] => false | _ => true end
  end.

(** [v[k]] with a string key: only a dictionary holding [k] answers. *)
Definition getitem (v : value) (k : string) : res value :=
  match v with
  | VDict d =>
      match dict_lookup k d with
      | Some x => Val x
      | None => Raise KeyError
      end
  | _ => Raise TypeError
  end.

(** [v.get(k)]: only dictionaries have the method. *)
Definition get_method (v : value) (k : string) : res value :=
  match v with
  | VDict d => Val (default VNone (dict_lookup k d))
  | _ => Raise AttributeError
  end.

Definition is_substring (k s : string) : bool :=
  match String.index 0 k s with
  | Some _ => true
  | None => false
  end.

(** [k in v] for a string [k]: key membership in a dictionary, element
    membership in a list, substring test in a string. *)
Definition contains (k : string) (v : value) : res bool :=
  match v with
  | VDict d => Val (bool_decide (is_Some (dict_lookup k d)))
  | VList l =>
      Val (existsb (fun x => match x with VStr s => String.eqb s k | _ => false end) l)
  | VStr s => Val (is_substring k s)
  | _ => Raise TypeError
  end.

(** [v == s] for a string literal [s]. *)
Definition eq_str (v : value) (s : string) : bool :=
  match v with
  | VStr s' => String.eqb s' s
  | _ => false
  end.

(** ** Strings *)

Definition nl : string := String "010"%char EmptyString.
Definition dq : string := String "034"%char EmptyString.

(** The lines of a triple-quoted literal, joined by newlines. *)
Fixpoint unlines (l : list string) : string :=
  match l with
  | [] => EmptyString
  | [s] => s
  | s :: l' => s +:+ nl +:+ unlines l'
  end.

(** [s.replace('_', ' ')] *)
Fixpoint replace_underscore (s : string) : string :=
  match s with
  | EmptyString => EmptyString
  | String c s' =>
      String (if Ascii.eqb c "_"%char then " "%char else c) (replace_underscore s')
  end.

(** [str(n)] for a natural number. *)
Definition str_of_nat (n : nat) : string := NilEmpty.string_of_uint (Nat.to_uint n).

(** [str(z)] for an integer. *)
Definition str_of_Z (z : Z) : string := NilEmpty.string_of_int (Z.to_int z).

(** The slice [l[:stop]]: a negative [stop] counts from the end. *)
Definition slice_to {A} (stop : Z) (l : list A) : list A :=
  if (0 <=? stop)%Z then firstn (Z.to_nat stop) l
  else firstn (length l - Z.to_nat (- stop)) l.

(** How an f-string renders [Optional[str]] and [bool] arguments. *)
Definition fmt_opt (o : option string) : string := default "None" o.
Definition fmt_bool (b : bool) : string := if b then "True" else "False".

(** [if s:] on an [Optional[str]]: [None] and the empty string are false. *)
Definition truthy_opt (o : option string) : bool :=
  match o with
  | Some s => negb (String.eqb s EmptyString)
  | None => false
  end.

(* ===================================================================== *)
(** ** The outside world and the client object                            *)
(* ===================================================================== *)

Record Request := mkRequest {
  req_url : string;
  req_params : list (string * value)
}.

(** What [session.get] meets: the call raises (connection refused, timeout,
    ...), or a response arrives with a status and a body; the body is [None]
    when [response.json()] raises on it. *)
Inductive Reply : Type :=
| Failed
| Response (status : Z) (body : option value).

(** [datetime.now()]: the epoch time stamp, the hour and the renderings of
    [strftime]. *)
Record DateTime := mkDateTime {
  dt_timestamp : Z;
  dt_hour : Z;
  dt_strftime : string -> string
}.

(** The world during one method call. The call is suspended only while a
    request is in flight, so the clock is indexed by the number of requests
    the call has completed so far: [clock 0] is read before the request of a
    query, [clock 1] once its response has arrived. *)
Record World := mkWorld {
  net : Request -> Reply;
  clock : nat -> DateTime
}.

(** An entry of [self.cache]: [{'data': ..., 'timestamp': ...}]. [_set_cache]
    is the only writer and always sets both keys. *)
Record CacheEntry := mkEntry {
  entry_data : value;
  entry_timestamp : Z
}.

(** The attributes of a [RemoteSleepQuotesClient]. [session] tells whether
    [self.session] is an open [aiohttp.ClientSession]; with no session, or a
    closed one, [self.session.get] raises. *)
Record Client := mkClient {
  server_url : string;
  fallback_urls : list string;
  session : bool;
  is_connected : bool;
  cache : gmap string CacheEntry;
  cache_ttl : Z
}.

Definition set_server_url (u : string) (c : Client) : Client :=
  mkClient u (fallback_urls c) (session c) (is_connected c) (cache c) (cache_ttl c).
Definition set_session (b : bool) (c : Client) : Client :=
  mkClient (server_url c) (fallback_urls c) b (is_connected c) (cache c) (cache_ttl c).
Definition set_is_connected (b : bool) (c : Client) : Client :=
  mkClient (server_url c) (fallback_urls c) (session c) b (cache c) (cache_ttl c).
Definition set_cache (m : gmap string CacheEntry) (c : Client) : Client :=
  mkClient (server_url c) (fallback_urls c) (session c) (is_connected c) m (cache_ttl c).
Definition set_cache_ttl (t : Z) (c : Client) : Client :=
  mkClient (server_url c) (fallback_urls c) (session c) (is_connected c) (cache c) t.

(** ** The monad of client methods *)

(** A computation reads the world, transforms the client and appends to the
    list of requests issued so far (oldest first). State changes made before
    an exception is raised persist, as in Python. *)
Definition M (A : Type) : Type :=
  World -> Client -> list Request -> res A * Client * list Request.

#[global] Instance M_ret : MRet M := fun A a _ c t => (Val a, c, t).
#[global] Instance M_bind : MBind M := fun A B f m w c t =>
  match m w c t with
  | (Val a, c', t') => f a w c' t'
  | (Raise e, c', t') => (Raise e, c', t')
  end.

Definition lift {A} (r : res A) : M A := fun _ c t => (r, c, t).
Definition get_self : M Client := fun _ c t => (Val c, c, t).
Definition modify_self (f : Client -> Client) : M unit := fun _ c t => (Val tt, f c, t).

(** [try: body except Exception: handler] *)
Definition try_except {A} (body : M A) (handler : exn -> M A) : M A :=
  fun w c t =>
    match body w c t with
    | (Val a, c', t') => (Val a, c', t')
    | (Raise e, c', t') => handler e w c' t'
    end.

(** [datetime.now()] *)
Definition datetime_now : M DateTime :=
  fun w c t => (Val (clock w (length t)), c, t).

(** [self.session.get(url, params=...)], entered as a context manager. *)
Definition session_get (url : string) (params : list (string * value))
  : M (Z * option value) :=
  fun w c t =>
    if session c then
      let rq := mkRequest url params in
      match net w rq with
      | Failed => (Raise ClientError, c, (t ++ [rq])%list)
      | Response status body => (Val (status, body), c, (t ++ [rq])%list)
      end
    else (Raise AttributeError, c, t).

(** [await response.json()] *)
Definition response_json (response : Z * option value) : M value :=
  match snd response with
  | Some data => mret data
  | None => lift (Raise ClientError)
  end.

(** Running a method on a client, from an empty request log. *)
Definition run {A} (m : M A) (w : World) (c : Client) : res A * Client * list Request :=
  m w c [].

(** The three components of a finished run. *)
Definition result_of {A} (x : res A * Client * list Request) : res A := x.1.1.
Definition client_of {A} (x : res A * Client * list Request) : Client := x.1.2.
Definition requests_of {A} (x : res A * Client * list Request) : list Request := x.2.

(* ===================================================================== *)
(** ** RemoteSleepQuotesClient                                            *)
(* ===================================================================== *)

(** [RemoteSleepQuotesClient.__init__]; [server_url or self.fallback_urls[0]]
    takes the first fallback when no URL, or the empty URL, is given. *)
Definition default_fallback_urls : list string :=
  [ "https://sleep-quotes-mcp.onrender.com";
    "https://sleep-quotes-mcp.railway.app";
    "https://sleep-quotes-mcp.fly.dev";
    "http://localhost:8000" ].

Definition new_client (url : option string) : Client :=
  {| server_url :=
       match url with
       | Some (String _ _ as given) => given
       | _ => default EmptyString (head default_fallback_urls)
       end;
     fallback_urls := default_fallback_urls;
     session := false;
     is_connected := false;
     cache := ∅;
     cache_ttl := 300 |}.

(** *** Endpoint discovery *)

(** The health probe of a URL, [GET url/health]; its timeout of five seconds
    makes the get raise, like any other transport failure. *)
Definition health_request (url : string) : Request :=
  mkRequest (url +:+ "/health") [].

(** [[self.server_url] + self.fallback_urls], the list [test_connection]
    walks through. *)
Definition candidates (c : Client) : list string :=
  server_url c :: fallback_urls c.

(** One turn of the loop of [test_connection]: [true] when the method has
    returned [True] from inside the loop, [false] when the loop goes on. *)
Definition probe (url : string) : M bool :=
  try_except
    (response ← session_get (url +:+ "/health") [];
     if (fst response =? 200)%Z then
       data ← response_json response;
       st ← lift (get_method data "status");
       if eq_str st "healthy" then
         modify_self (set_server_url url);;
         modify_self (set_is_connected true);;
         mret true
       else mret false
     else mret false)
    (fun _ => mret false).

Fixpoint test_connection_loop (urls : list string) : M bool :=
  match urls with
  | [] =>
      modify_self (set_is_connected false);;
      mret false
  | url :: rest =>
      bound ← probe url;
      if bound : bool then mret true else test_connection_loop rest
  end.

Definition test_connection : M bool :=
  c ← get_self;
  test_connection_loop (candidates c).

(** [__aenter__] opens the session and runs the discovery; [__aexit__] closes
    the session. *)
Definition aenter : M unit :=
  modify_self (set_session true);;
  test_connection;;
  mret tt.

Definition aexit : M unit :=
  c ← get_self;
  if session c then modify_self (set_session false) else mret tt.

(** *** The cache *)

Definition _is_cache_valid (cache_key : string) : M bool :=
  c ← get_self;
  match cache c !! cache_key with
  | None => mret false
  | Some e =>
      now ← datetime_now;
      mret (dt_timestamp now - entry_timestamp e <? cache_ttl c)%Z
  end.

Definition _set_cache (cache_key : string) (data : value) : M unit :=
  now ← datetime_now;
  modify_self (fun c =>
    set_cache (<[cache_key := mkEntry data (dt_timestamp now)]> (cache c)) c).

Definition _get_cache (cache_key : string) : M value :=
  valid ← _is_cache_valid cache_key;
  if valid : bool then
    c ← get_self;
    match cache c !! cache_key with
    | Some e => mret (entry_data e)
    | None => lift (Raise KeyError)
    end
  else mret VNone.

(** *** Offline responses *)

Definition offline_quote_message : string := unlines [
  "❌ SERVIDOR REMOTO NO DISPONIBLE";
  EmptyString;
  "🔌 No se pudo conectar al servidor de citas inspiracionales.";
  EmptyString;
  "💡 Cita offline:";
  dq +:+ "El sueño es la mejor inversión que puedes hacer en tu bienestar. Descansa bien esta noche." +:+ dq;
  "— Sleep Coach Local";
  EmptyString;
  "🌙 El servidor estará disponible pronto. ¡Dulces sueños!" ].

Definition offline_tip_message : string := unlines [
  "❌ SERVIDOR REMOTO NO DISPONIBLE";
  EmptyString;
  "🔌 No se pudo conectar al servidor de consejos de sueño.";
  EmptyString;
  "💡 Consejo offline:";
  dq +:+ "Mantén tu habitación fresca (18-20°C), oscura y silenciosa para un sueño óptimo." +:+ dq;
  EmptyString;
  "🌙 El servidor estará disponible pronto." ].

Definition offline_search_message : string := unlines [
  "❌ SERVIDOR REMOTO NO DISPONIBLE";
  EmptyString;
  "🔌 No se puede realizar la búsqueda en este momento.";
  EmptyString;
  "⏳ Intenta nuevamente cuando el servidor esté disponible." ].

Definition offline_wisdom_message : string := unlines [
  "❌ SERVIDOR REMOTO NO DISPONIBLE";
  EmptyString;
  "🔌 No se pudo obtener la sabiduría diaria.";
  EmptyString;
  "💭 Reflexión offline:";
  dq +:+ "Cada noche es una oportunidad de descanso y renovación. Aprovecha este momento para cuidar tu bienestar." +:+ dq;
  EmptyString;
  "🌙 El servidor estará disponible pronto." ].

Definition offline_payload (message : string) : value :=
  VDict [ ("success", VBool false);
          ("message", VStr message);
          ("source", VStr "offline_fallback") ].

Definition _get_offline_response (response_type : string) : value :=
  if String.eqb response_type "quote" then offline_payload offline_quote_message
  else if String.eqb response_type "tip" then offline_payload offline_tip_message
  else if String.eqb response_type "search" then offline_payload offline_search_message
  else if String.eqb response_type "wisdom" then offline_payload offline_wisdom_message
  else offline_payload "❌ Servidor remoto no disponible".

(* ===================================================================== *)
(** ** SleepQuotesDatabase (the provider)                                 *)
(* ===================================================================== *)

Module Provider.

Record SleepQuote := mkQuote {
  id : Z;
  quote : string;
  author : string;
  category : string;
  time_of_day : string;
  mood : string
}.

(** [SleepQuotesDatabase._initialize_quotes] *)
Definition initial_quotes : list SleepQuote := [
    mkQuote 1
      "Cada noche es una oportunidad para que tu mente y cuerpo se regeneren completamente."
      "Dr. Sleep Coach"
      "sleep_hygiene" "night" "peaceful";
    mkQuote 2
      "El sueño es la mejor meditación que existe. Entrégate a él con gratitud."
      "Dalai Lama"
      "mindfulness" "night" "calm";
    mkQuote 3
      "Tu cerebro trabaja toda la noche organizando los recuerdos del día. Dale el descanso que merece."
      "Neuroscience Today"
      "science" "night" "educational";
    mkQuote 4
      "Desconecta los dispositivos, conecta con tus sueños."
      "Sleep Expert"
      "sleep_hygiene" "evening" "motivational";
    mkQuote 5
      "El sueño es el momento en que tu cuerpo repara, tu mente procesa y tu alma descansa."
      "Wellness Guru"
      "holistic" "night" "peaceful";
    mkQuote 6
      "Cada amanecer es una nueva página en blanco. ¿Cómo la vas a escribir hoy?"
      "Morning Wisdom"
      "motivation" "morning" "motivational";
    mkQuote 7
      "Un buen día comienza con una noche de sueño reparador. Tu cuerpo te lo agradece."
      "Health Coach"
      "wellness" "morning" "calm";
    mkQuote 8
      "El sol sale para recordarte que cada día es una nueva oportunidad de brillar."
      "Sun Wisdom"
      "inspiration" "morning" "motivational";
    mkQuote 9
      "A medida que el día llega a su fin, permite que tu mente también encuentre paz."
      "Evening Reflection"
      "mindfulness" "evening" "reflective";
    mkQuote 10
      "Una habitación oscura, fresca y silenciosa es el templo sagrado del sueño reparador."
      "Sleep Environment Expert"
      "sleep_hygiene" "evening" "educational";
    mkQuote 11
      "La cafeína permanece en tu sistema hasta 8 horas. Planifica tu última taza sabiamente."
      "Sleep Science"
      "sleep_hygiene" "evening" "educational";
    mkQuote 12
      "Tu cama es solo para dormir y relajarte. Mantenla como un santuario de descanso."
      "Sleep Hygiene Pro"
      "sleep_hygiene" "evening" "motivational";
    mkQuote 13
      "Respirar profundamente por 4 segundos, mantener por 7, exhalar por 8. La técnica 4-7-8 para el sueño."
      "Dr. Andrew Weil"
      "techniques" "night" "calm";
    mkQuote 14
      "La luz azul de las pantallas confunde a tu cerebro. Dale una hora de descanso antes de dormir."
      "Circadian Rhythm Expert"
      "sleep_hygiene" "evening" "educational";
    mkQuote 15
      "Dormir no es tiempo perdido, es inversión en tu salud, productividad y felicidad del mañana."
      "Productivity Coach"
      "motivation" "night" "motivational" ]%list.

(** The database object; its [user_preferences] dictionary is never read. *)
Record SleepQuotesDatabase := mkDb { quotes : list SleepQuote }.

(** The module-level instance [sleep_db]. *)
Definition sleep_db : SleepQuotesDatabase := mkDb initial_quotes.

(** [random.choice(seq)]: [IndexError] on an empty sequence, otherwise the
    element at the index the generator draws below [len(seq)]; [draw] stands
    for the generator's output, reduced to that range. *)
Definition random_choice {A} (draw : nat) (seq : list A) : res A :=
  match nth_error seq (draw mod length seq) with
  | Some x => Val x
  | None => Raise IndexError
  end.

(** [getattr(q, key)] for the three attributes a filter may name. *)
Definition getattr (q : SleepQuote) (key : string) : string :=
  if String.eqb key "category" then category q
  else if String.eqb key "time_of_day" then time_of_day q
  else mood q.

Definition recognized (key : string) : bool :=
  existsb (String.eqb key) ["category"; "time_of_day"; "mood"].

(** The loop [for key, value in filters.items()] of [get_random_quote]. *)
Fixpoint apply_filters (filters : list (string * value))
  (filtered_quotes : list SleepQuote) : list SleepQuote :=
  match filters with
  | [] => filtered_quotes
  | (key, v) :: rest =>
      apply_filters rest
        (if recognized key
         then List.filter (fun q => eq_str v (getattr q key)) filtered_quotes
         else filtered_quotes)
  end.

Definition get_random_quote (db : SleepQuotesDatabase) (draw : nat)
  (filters : list (string * value)) : res SleepQuote :=
  let filtered_quotes := apply_filters filters (quotes db) in
  let filtered_quotes :=
    match filtered_quotes with
    | [] => quotes db
    | _ => filtered_quotes
    end in
  random_choice draw filtered_quotes.

Definition time_filter (current_hour : Z) : string :=
  if ((6 <=? current_hour) && (current_hour <? 18))%Z then "morning"
  else if ((18 <=? current_hour) && (current_hour <? 22))%Z then "evening"
  else "night".

Definition get_quote_by_time (db : SleepQuotesDatabase) (draw : nat)
  (now : DateTime) : res SleepQuote :=
  let current_hour := dt_hour now in
  get_random_quote db draw [("time_of_day", VStr (time_filter current_hour))].

Definition get_sleep_tip (db : SleepQuotesDatabase) (draw : nat) : res SleepQuote :=
  get_random_quote db draw [("category", VStr "sleep_hygiene")].

(** [dataclasses.asdict] on a quote. *)
Definition asdict (q : SleepQuote) : value :=
  VDict [ ("id", VInt (id q));
          ("quote", VStr (quote q));
          ("author", VStr (author q));
          ("category", VStr (category q));
          ("time_of_day", VStr (time_of_day q));
          ("mood", VStr (mood q)) ].

(** A quote passes the filters: each recognized key holds the asked value. *)
Definition passes (filters : list (string * value)) (q : SleepQuote) : bool :=
  forallb (fun kv => implb (recognized kv.1) (eq_str kv.2 (getattr q kv.1))) filters.

Section Endpoints.

(** Two built-ins of Python are taken as given: [str.lower], and the text
    [str(e)] of an exception. *)
Variable str_lower : string -> string.
Variable str_exn : exn -> string.

(** The test of the loop of [SleepQuotesDatabase.search_quotes]. Strings are
    UTF-8 byte sequences here; a byte-wise occurrence of one well-formed text
    in another is an occurrence of its characters, as Python's [in] tests. *)
Definition quote_matches (query_lower : string) (q : SleepQuote) : bool :=
  is_substring query_lower (str_lower (quote q))
  || is_substring query_lower (str_lower (author q))
  || is_substring query_lower (str_lower (category q)).

Definition search_quotes (db : SleepQuotesDatabase) (query : string)
  : list SleepQuote :=
  let query_lower := str_lower query in
  let matching_quotes := List.filter (quote_matches query_lower) (quotes db) in
  slice_to 5 matching_quotes.

(** *** The REST endpoints *)

(** What the framework sends for a handler: status 200 with the returned
    dictionary, or the status and detail of the [HTTPException] the handler
    raises from its [except] clause. *)
Definition respond (body : res value) : Reply :=
  match body with
  | Val b => Response 200 (Some b)
  | Raise e => Response 500 (Some (VDict [("detail", VStr (str_exn e))]))
  end.

(** In the handlers below [timestamp] is [datetime.now().isoformat()], [now]
    the clock [get_quote_by_time] reads, and each [draw] one use of the random
    generator. *)
Definition health_check (timestamp : string) : Reply :=
  Response 200 (Some (VDict [
    ("status", VStr "healthy");
    ("timestamp", VStr timestamp);
    ("quotes_loaded", VInt (Z.of_nat (length (quotes sleep_db)))) ])).

Definition api_filters (category mood : option string) : list (string * value) :=
  ((if truthy_opt category then [("category", VStr (fmt_opt category))] else []) ++
   (if truthy_opt mood then [("mood", VStr (fmt_opt mood))] else []))%list.

Definition get_quote_api (category mood : option string) (time_based : bool)
  (draw : nat) (now : DateTime) (timestamp : string) : Reply :=
  respond
    (let filters := api_filters category mood in
     q ← (if time_based then get_quote_by_time sleep_db draw now
          else get_random_quote sleep_db draw filters);
     mret (VDict [("quote", asdict q); ("timestamp", VStr timestamp)])).

Definition get_tip_api (draw : nat) (timestamp : string) : Reply :=
  respond
    (tip ← get_sleep_tip sleep_db draw;
     mret (VDict [("tip", asdict tip); ("timestamp", VStr timestamp)])).

Definition search_quotes_api (query : string) (limit : Z) (timestamp : string)
  : Reply :=
  respond
    (let results := slice_to limit (search_quotes sleep_db query) in
     mret (VDict [
       ("query", VStr query);
       ("results", VList (map asdict results));
       ("total_found", VInt (Z.of_nat (length results)));
       ("timestamp", VStr timestamp) ])).

Definition get_wisdom_api (include_tip : bool) (draw_quote draw_tip : nat)
  (now : DateTime) (timestamp : string) : Reply :=
  respond
    (q ← get_quote_by_time sleep_db draw_quote now;
     let response := [("daily_quote", asdict q); ("timestamp", VStr timestamp)] in
     if include_tip then
       tip ← get_sleep_tip sleep_db draw_tip;
       mret (VDict (response ++ [("daily_tip", asdict tip)])%list)
     else mret (VDict response)).

End Endpoints.

End Provider.

(* ===================================================================== *)
(** ** Concrete objects on which the model is run                         *)
(* ===================================================================== *)

Module Sample.

(** [str.title] on ASCII text: the first letter of each run of letters in
    upper case, the others in lower case. *)
Definition is_lower (c : ascii) : bool :=
  (97 <=? nat_of_ascii c)%nat && (nat_of_ascii c <=? 122)%nat.
Definition is_upper (c : ascii) : bool :=
  (65 <=? nat_of_ascii c)%nat && (nat_of_ascii c <=? 90)%nat.
Definition to_upper (c : ascii) : ascii :=
  if is_lower c then ascii_of_nat (nat_of_ascii c - 32) else c.
Definition to_lower (c : ascii) : ascii :=
  if is_upper c then ascii_of_nat (nat_of_ascii c + 32) else c.

Fixpoint title_from (in_word : bool) (s : string) : string :=
  match s with
  | EmptyString => EmptyString
  | String c s' =>
      if is_lower c || is_upper c
      then String (if in_word then to_lower c else to_upper c) (title_from true s')
      else String c (title_from false s')
  end.

Definition ascii_title (s : string) : string := title_from false s.

(** [str.lower] on ASCII text. *)
Fixpoint ascii_lower (s : string) : string :=
  match s with
  | EmptyString => EmptyString
  | String c s' => String (to_lower c) (ascii_lower s')
  end.

(** The text of an exception. *)
Definition exn_name (e : exn) : string :=
  match e with
  | KeyError => "KeyError"
  | TypeError => "TypeError"
  | AttributeError => "AttributeError"
  | IndexError => "IndexError"
  | ClientError => "ClientError"
  end.

(** The text substituted for the values that are not strings. *)
Definition simple_str (v : value) : string :=
  match v with
  | VNone => "None"
  | VBool b => fmt_bool b
  | _ => "..."
  end.

(** A clock standing at epoch second [t] of 1 January 2025, 08:00. *)
Definition clock_at (t : Z) : nat -> DateTime := fun _ =>
  mkDateTime t 8 (fun format =>
    if String.eqb format "%Y-%m-%d" then "2025-01-01"
    else if String.eqb format "%H:%M" then "08:00"
    else "Wednesday, 01 de January").

(** The same clock on the next day, just after midnight. *)
Definition clock_next_day (t : Z) : nat -> DateTime := fun _ =>
  mkDateTime t 0 (fun format =>
    if String.eqb format "%Y-%m-%d" then "2025-01-02"
    else if String.eqb format "%H:%M" then "00:00"
    else "Thursday, 02 de January").

Definition nth_quote (n : nat) : value :=
  match nth_error Provider.initial_quotes n with
  | Some q => Provider.asdict q
  | None => VNone
  end.

Definition iso_time : value := VStr "2025-01-01T08:00:00".

(** A provider listening on [http://localhost:8000] and nowhere else; [n]
    selects the quote it serves. The search for [zzz] has no match. *)
Definition local_net (n : nat) (rq : Request) : Reply :=
  let url := req_url rq in
  if String.eqb url "http://localhost:8000/health" then
    Response 200 (Some (VDict [("status", VStr "healthy"); ("timestamp", iso_time);
                               ("quotes_loaded", VInt 15)]))
  else if String.eqb url "http://localhost:8000/api/quote" then
    Response 200 (Some (VDict [("quote", nth_quote n); ("timestamp", iso_time)]))
  else if String.eqb url "http://localhost:8000/api/tip" then
    Response 200 (Some (VDict [("tip", nth_quote n); ("timestamp", iso_time)]))
  else if String.eqb url "http://localhost:8000/api/search/paz" then
    Response 200 (Some (VDict [("query", VStr "paz"); ("results", VList [nth_quote n]);
                               ("total_found", VInt 1); ("timestamp", iso_time)]))
  else if String.eqb url "http://localhost:8000/api/search/zzz" then
    Response 200 (Some (VDict [("query", VStr "zzz"); ("results", VList []);
                               ("total_found", VInt 0); ("timestamp", iso_time)]))
  else if String.eqb url "http://localhost:8000/api/wisdom" then
    Response 200 (Some (VDict [("daily_quote", nth_quote n); ("daily_tip", nth_quote 3);
                               ("timestamp", iso_time)]))
  else Failed.

Definition local_server (t : Z) (n : nat) : World := mkWorld (local_net n) (clock_at t).

Definition local_server_next_day (t : Z) (n : nat) : World :=
  mkWorld (local_net n) (clock_next_day t).

(** A world in which the bound endpoint answers every request with [reply]. *)
Definition answering (reply : Reply) (t : Z) : World :=
  mkWorld (fun _ => reply) (clock_at t).

(** No server anywhere. *)
Definition nowhere : World := answering Failed 1000.

(** The client built with the default URL, and that client once it has
    entered its context with only the local provider up. *)
Definition fresh_client : Client := new_client None.
Definition connected_client : Client :=
  client_of (run aenter (local_server 1000 0) fresh_client).

End Sample.

(* ===================================================================== *)
(** ** The four queries of the client                                     *)
(* ===================================================================== *)

(** The kinds of query, with their arguments. *)
Inductive Query : Type :=
| Quote (category mood : option string) (time_based : bool)
| Tip
| Search (query : string) (limit : Z)
| Wisdom (include_tip : bool).

(** The name under which a kind looks up its offline response. *)
Definition kind (q : Query) : string :=
  match q with
  | Quote _ _ _ => "quote"
  | Tip => "tip"
  | Search _ _ => "search"
  | Wisdom _ => "wisdom"
  end.

(** The public operations on a client. *)
Inductive Op : Type :=
| Enter
| Exit
| TestConnection
| Ask (q : Query).

Section Queries.

(** Two built-ins of Python are taken as given: [str.title], and the text an
    f-string substitutes for a value that is not a string. *)
Variable str_title : string -> string.
Variable py_str : value -> string.

(** So are the text [str(e)] of an exception, which [get_server_status] and
    the provider's endpoints put in their answers, and [str.lower], which the
    provider's search uses. *)
Variable str_exn : exn -> string.
Variable str_lower : string -> string.

(** [f"{v}"] *)
Definition fmt (v : value) : string :=
  match v with
  | VStr s => s
  | _ => py_str v
  end.

(** [v.replace('_', ' ').title()] and [v.title()]: string methods. *)
Definition replace_title (v : value) : res string :=
  match v with
  | VStr s => Val (str_title (replace_underscore s))
  | _ => Raise AttributeError
  end.

Definition title (v : value) : res string :=
  match v with
  | VStr s => Val (str_title s)
  | _ => Raise AttributeError
  end.

(** **** get_inspirational_quote *)

Definition quote_cache_key (category mood : option string) (time_based : bool)
  : string :=
  "quote_" +:+ fmt_opt category +:+ "_" +:+ fmt_opt mood +:+ "_" +:+ fmt_bool time_based.

Definition quote_params (category mood : option string) (time_based : bool)
  : list (string * value) :=
  ((if truthy_opt category then [("category", VStr (fmt_opt category))] else []) ++
   (if truthy_opt mood then [("mood", VStr (fmt_opt mood))] else []) ++
   (if time_based then [("time_based", VStr "true")] else []))%list.

(** The dictionary built from a decoded body, up to the cache write. *)
Definition format_quote (data : value) (now : DateTime) : res value :=
  quote_data ← getitem data "quote";
  q ← getitem quote_data "quote";
  author ← getitem quote_data "author";
  category ← getitem quote_data "category" ≫= replace_title;
  mood ← getitem quote_data "mood" ≫= title;
  time_of_day ← getitem quote_data "time_of_day" ≫= replace_title;
  timestamp ← getitem data "timestamp";
  mret (VDict [
    ("success", VBool true);
    ("message", VStr (unlines [
       "🌙 CITA INSPIRACIONAL PARA DORMIR 🌙";
       EmptyString;
       dq +:+ fmt q +:+ dq;
       EmptyString;
       "— " +:+ fmt author;
       EmptyString;
       "📅 Hora: " +:+ dt_strftime now "%H:%M";
       "🏷️  Categoría: " +:+ category;
       "💭 Estado: " +:+ mood;
       "⏰ Momento: " +:+ time_of_day;
       EmptyString;
       "✨ Que tengas dulces sueños ✨" ]));
    ("quote_data", quote_data);
    ("source", VStr "remote_server");
    ("timestamp", timestamp) ]).

Definition get_inspirational_quote
  (category mood : option string) (time_based : bool) : M value :=
  c ← get_self;
  if negb (is_connected c) then mret (_get_offline_response "quote") else
  let cache_key := quote_cache_key category mood time_based in
  cached_data ← _get_cache cache_key;
  if truthy cached_data then mret cached_data else
  try_except
    (let params := quote_params category mood time_based in
     c ← get_self;
     response ← session_get (server_url c +:+ "/api/quote") params;
     if (fst response =? 200)%Z then
       data ← response_json response;
       now ← datetime_now;
       formatted_response ← lift (format_quote data now);
       _set_cache cache_key formatted_response;;
       mret formatted_response
     else mret (_get_offline_response "quote"))
    (fun _ => mret (_get_offline_response "quote")).

(** **** get_sleep_hygiene_tip *)

Definition tip_cache_key : string := "sleep_tip".

Definition format_tip (data : value) : res value :=
  tip_data ← getitem data "tip";
  q ← getitem tip_data "quote";
  author ← getitem tip_data "author";
  timestamp ← getitem data "timestamp";
  mret (VDict [
    ("success", VBool true);
    ("message", VStr (unlines [
       "💡 CONSEJO DE HIGIENE DEL SUEÑO 💡";
       EmptyString;
       fmt q;
       EmptyString;
       "— " +:+ fmt author;
       EmptyString;
       "🎯 Esta es tu recomendación personalizada para mejorar tu calidad de sueño.";
       EmptyString;
       "💤 Recuerda: Pequeños cambios en tus hábitos pueden generar grandes mejoras en tu descanso." ]));
    ("tip_data", tip_data);
    ("source", VStr "remote_server");
    ("timestamp", timestamp) ]).

Definition get_sleep_hygiene_tip : M value :=
  c ← get_self;
  if negb (is_connected c) then mret (_get_offline_response "tip") else
  let cache_key := tip_cache_key in
  cached_data ← _get_cache cache_key;
  if truthy cached_data then mret cached_data else
  try_except
    (c ← get_self;
     response ← session_get (server_url c +:+ "/api/tip") [];
     if (fst response =? 200)%Z then
       data ← response_json response;
       formatted_response ← lift (format_tip data);
       _set_cache cache_key formatted_response;;
       mret formatted_response
     else mret (_get_offline_response "tip"))
    (fun _ => mret (_get_offline_response "tip")).

(** **** search_quotes *)

(** The body of [for i, quote in enumerate(data['results'], 1)], appending to
    the message. *)
Fixpoint render_results (i : nat) (results : list value) (message : string)
  : res string :=
  match results with
  | [] => Val message
  | quote :: rest =>
      q ← getitem quote "quote";
      author ← getitem quote "author";
      category ← getitem quote "category" ≫= replace_title;
      render_results (S i) rest
        (message +:+ unlines [
           EmptyString;
           str_of_nat i +:+ ". " +:+ dq +:+ fmt q +:+ dq;
           "   — " +:+ fmt author +:+ " | " +:+ category;
           EmptyString;
           EmptyString ])
  end.

Definition no_match_message (query : string) : string := unlines [
  "🔍 BÚSQUEDA: " +:+ dq +:+ query +:+ dq;
  EmptyString;
  "❌ No se encontraron citas que coincidan con tu búsqueda.";
  EmptyString;
  "💡 Intenta con términos como: sueño, descanso, noche, relajación, paz" ].

(** On a true [data['results']] that is not a list, [len] or the first
    [quote['quote']] raises [TypeError]. *)
Definition search_message (query : string) (results : value) : res string :=
  if negb (truthy results) then Val (no_match_message query)
  else
    match results with
    | VList l =>
        render_results 1 l (unlines [
          "🔍 RESULTADOS DE BÚSQUEDA: " +:+ dq +:+ query +:+ dq;
          EmptyString;
          "📚 Encontré " +:+ str_of_nat (length l) +:+ " cita(s) para ti:";
          EmptyString;
          EmptyString ])
    | _ => Raise TypeError
    end.

Definition format_search (query : string) (data : value) : res value :=
  results ← getitem data "results";
  message ← search_message query results;
  total_found ← getitem data "total_found";
  timestamp ← getitem data "timestamp";
  mret (VDict [
    ("success", VBool true);
    ("message", VStr message);
    ("results", results);
    ("total_found", total_found);
    ("source", VStr "remote_server");
    ("timestamp", timestamp) ]).

Definition search_quotes (query : string) (limit : Z) : M value :=
  c ← get_self;
  if negb (is_connected c) then mret (_get_offline_response "search") else
  try_except
    (c ← get_self;
     response ← session_get (server_url c +:+ "/api/search/" +:+ query)
                            [("limit", VInt limit)];
     if (fst response =? 200)%Z then
       data ← response_json response;
       lift (format_search query data)
     else mret (_get_offline_response "search"))
    (fun _ => mret (_get_offline_response "search")).

(** **** get_daily_wisdom *)

Definition wisdom_cache_key (now : DateTime) (include_tip : bool) : string :=
  "daily_wisdom_" +:+ dt_strftime now "%Y-%m-%d" +:+ "_" +:+ fmt_bool include_tip.

Definition format_wisdom (include_tip : bool) (data : value) (now : DateTime)
  : res value :=
  quote_data ← getitem data "daily_quote";
  let current_date := dt_strftime now "%A, %d de %B" in
  let current_time := dt_strftime now "%H:%M" in
  q ← getitem quote_data "quote";
  author ← getitem quote_data "author";
  let message := unlines [
    "📖 SABIDURÍA DIARIA DEL SUEÑO 📖";
    EmptyString;
    "📅 " +:+ current_date +:+ " • " +:+ current_time;
    EmptyString;
    "🌟 CITA DEL DÍA:";
    dq +:+ fmt q +:+ dq;
    "— " +:+ fmt author;
    EmptyString;
    EmptyString ] in
  with_tip ← (if include_tip then contains "daily_tip" data else Val false);
  message ← (if with_tip : bool then
               tip_data ← getitem data "daily_tip";
               tip ← getitem tip_data "quote";
               Val (message +:+ unlines [
                 "💡 CONSEJO PRÁCTICO:";
                 fmt tip;
                 EmptyString;
                 "🎯 Aplica este consejo hoy y observa cómo mejora tu descanso nocturno.";
                 EmptyString;
                 EmptyString ])
             else Val message);
  let message :=
    message +:+ "🌙 Que tengas un día productivo y una noche de sueño reparador. 🌙" in
  daily_tip ← get_method data "daily_tip";
  timestamp ← getitem data "timestamp";
  mret (VDict [
    ("success", VBool true);
    ("message", VStr message);
    ("daily_quote", quote_data);
    ("daily_tip", daily_tip);
    ("source", VStr "remote_server");
    ("timestamp", timestamp) ]).

Definition get_daily_wisdom (include_tip : bool) : M value :=
  c ← get_self;
  if negb (is_connected c) then mret (_get_offline_response "wisdom") else
  today ← datetime_now;
  let cache_key := wisdom_cache_key today include_tip in
  cached_data ← _get_cache cache_key;
  if truthy cached_data then mret cached_data else
  try_except
    (let params := [("include_tip", VStr (if include_tip then "true" else "false"))] in
     c ← get_self;
     response ← session_get (server_url c +:+ "/api/wisdom") params;
     if (fst response =? 200)%Z then
       data ← response_json response;
       now ← datetime_now;
       formatted_response ← lift (format_wisdom include_tip data now);
       modify_self (set_cache_ttl 3600);;
       _set_cache cache_key formatted_response;;
       modify_self (set_cache_ttl 300);;
       mret formatted_response
     else mret (_get_offline_response "wisdom"))
    (fun _ => mret (_get_offline_response "wisdom")).

(** **** The four queries as one interface *)

Definition call (q : Query) : M value :=
  match q with
  | Quote category mood time_based => get_inspirational_quote category mood time_based
  | Tip => get_sleep_hygiene_tip
  | Search query limit => search_quotes query limit
  | Wisdom include_tip => get_daily_wisdom include_tip
  end.

(** The request a query sends to the bound endpoint. *)
Definition request_of (q : Query) (c : Client) : Request :=
  match q with
  | Quote category mood time_based =>
      mkRequest (server_url c +:+ "/api/quote") (quote_params category mood time_based)
  | Tip => mkRequest (server_url c +:+ "/api/tip") []
  | Search query limit =>
      mkRequest (server_url c +:+ "/api/search/" +:+ query) [("limit", VInt limit)]
  | Wisdom include_tip =>
      mkRequest (server_url c +:+ "/api/wisdom")
        [("include_tip", VStr (if include_tip then "true" else "false"))]
  end.

(** The dictionary a query builds from a decoded body. *)
Definition format_of (q : Query) (data : value) (now : DateTime) : res value :=
  match q with
  | Quote _ _ _ => format_quote data now
  | Tip => format_tip data
  | Search query _ => format_search query data
  | Wisdom include_tip => format_wisdom include_tip data now
  end.

(** The cache key a query derives; [search_quotes] derives none. [today] is
    the clock at the start of the call. *)
Definition cache_key_of (q : Query) (today : DateTime) : option string :=
  match q with
  | Quote category mood time_based => Some (quote_cache_key category mood time_based)
  | Tip => Some tip_cache_key
  | Search _ _ => None
  | Wisdom include_tip => Some (wisdom_cache_key today include_tip)
  end.

(** What [_get_cache] reads at a given time: the stored data of a valid entry,
    [None] otherwise. *)
Definition cache_read (c : Client) (cache_key : string) (now : DateTime) : value :=
  match cache c !! cache_key with
  | Some e =>
      if (dt_timestamp now - entry_timestamp e <? cache_ttl c)%Z
      then entry_data e else VNone
  | None => VNone
  end.

(** The cached value a query returns without asking the server, if any. *)
Definition cache_hit (q : Query) (w : World) (c : Client) : option value :=
  match cache_key_of q (clock w 0) with
  | Some cache_key =>
      let cached_data := cache_read c cache_key (clock w 0) in
      if truthy cached_data then Some cached_data else None
  | None => None
  end.

(** The client after the cache write of a successful query;
    [get_daily_wisdom] leaves [cache_ttl] at 300. *)
Definition store (q : Query) (cache_key : string) (r : value) (now : DateTime)
  (c : Client) : Client :=
  mkClient (server_url c) (fallback_urls c) (session c) (is_connected c)
    (<[cache_key := mkEntry r (dt_timestamp now)]> (cache c))
    (match q with Wisdom _ => 300%Z | _ => cache_ttl c end).

(** *** The bodies a query accepts *)

(** The value a dictionary holds under a key: nothing when the value is not a
    dictionary or has no such key. *)
Definition field (v : value) (k : string) : option value :=
  match v with
  | VDict d => dict_lookup k d
  | _ => None
  end.

Definition has_field (v : value) (k : string) : bool :=
  match field v k with
  | Some _ => true
  | None => false
  end.

Definition has_str_field (v : value) (k : string) : bool :=
  match field v k with
  | Some (VStr _) => true
  | _ => false
  end.

Definition subfield (v : value) (k : string) : value :=
  match field v k with
  | Some x => x
  | None => VNone
  end.

(** An element of a result list the search can render. *)
Definition result_item_ok (item : value) : bool :=
  has_field item "quote" && has_field item "author" && has_str_field item "category".

(** The decoded bodies on which the formatting of a query goes through: the
    fields it subscripts are there, and the fields on which it calls a string
    method are strings. Nothing is asked of the other values (the text and
    the author of a quote, the time stamp, the total), which are passed on or
    rendered whatever they are. *)
Definition accepted_body (q : Query) (data : value) : bool :=
  match q with
  | Quote _ _ _ =>
      let quote_data := subfield data "quote" in
      has_field data "quote" &&
      has_field quote_data "quote" &&
      has_field quote_data "author" &&
      has_str_field quote_data "category" &&
      has_str_field quote_data "mood" &&
      has_str_field quote_data "time_of_day" &&
      has_field data "timestamp"
  | Tip =>
      let tip_data := subfield data "tip" in
      has_field data "tip" &&
      has_field tip_data "quote" &&
      has_field tip_data "author" &&
      has_field data "timestamp"
  | Search _ _ =>
      let results := subfield data "results" in
      has_field data "results" &&
      (negb (truthy results) ||
       match results with
       | VList l => forallb result_item_ok l
       | _ => false
       end) &&
      has_field data "total_found" &&
      has_field data "timestamp"
  | Wisdom include_tip =>
      let quote_data := subfield data "daily_quote" in
      has_field data "daily_quote" &&
      has_field quote_data "quote" &&
      has_field quote_data "author" &&
      (if include_tip && has_field data "daily_tip"
       then has_field (subfield data "daily_tip") "quote"
       else true) &&
      has_field data "timestamp"
  end.

(** The ways the request of a query fails: no usable session, a transport
    exception, a status other than 200, a body that is not JSON, a body the
    query does not accept. *)
Inductive request_fails (q : Query) (w : World) (c : Client) : Prop :=
| fails_no_session :
    session c = false -> request_fails q w c
| fails_transport :
    net w (request_of q c) = Failed -> request_fails q w c
| fails_status status body :
    net w (request_of q c) = Response status body -> status ≠ 200%Z ->
    request_fails q w c
| fails_json :
    net w (request_of q c) = Response 200 None -> request_fails q w c
| fails_payload data :
    net w (request_of q c) = Response 200 (Some data) ->
    accepted_body q data = false ->
    request_fails q w c.

(** *** Life of a client object *)

Definition perform (op : Op) : M value :=
  match op with
  | Enter => aenter;; mret VNone
  | Exit => aexit;; mret VNone
  | TestConnection => b ← test_connection; mret (VBool b)
  | Ask q => call q
  end.

(** The states a client reaches from its construction through its methods,
    whatever the world answers. *)
Inductive reachable : Client -> Prop :=
| reachable_new url : reachable (new_client url)
| reachable_perform c op w :
    reachable c -> reachable (client_of (run (perform op) w c)).

(** *** get_server_status *)

Definition get_server_status : M value :=
  try_except
    (c ← get_self;
     response ← session_get (server_url c +:+ "/") [];
     if (fst response =? 200)%Z then
       data ← response_json response;
       c ← get_self;
       mret (VDict [
         ("success", VBool true);
         ("connected", VBool true);
         ("server_info", data);
         ("url", VStr (server_url c)) ])
     else
       mret (VDict [
         ("success", VBool false);
         ("connected", VBool false);
         ("error", VStr ("HTTP " +:+ str_of_Z (fst response))) ]))
    (fun e =>
       mret (VDict [
         ("success", VBool false);
         ("connected", VBool false);
         ("error", VStr (str_exn e)) ])).

(** *** SleepQuotesRemoteClient, the wrapper that creates its client on first
    use *)

Record SleepQuotesRemoteClient := mkWrapper {
  wrapper_server_url : option string;
  _async_client : option Client
}.

(** [SleepQuotesRemoteClient.__init__] *)
Definition new_wrapper (url : option string) : SleepQuotesRemoteClient :=
  mkWrapper url None.

(** The methods of the wrapper: like [M], over the wrapper object. *)
Definition MW (A : Type) : Type :=
  World -> SleepQuotesRemoteClient -> list Request ->
  res A * SleepQuotesRemoteClient * list Request.

(** [_get_client] builds the client and enters its context when there is
    none yet; the client object is stored before it is entered. *)
Definition _get_client : MW unit :=
  fun w s t =>
    match _async_client s with
    | None =>
        let '(r, c, t') := aenter w (new_client (wrapper_server_url s)) t in
        (r, mkWrapper (wrapper_server_url s) (Some c), t')
    | Some _ => (Val tt, s, t)
    end.

(** [client = await self._get_client(); return await client.m(...)]; the
    method works on the stored client object. *)
Definition with_client {A} (m : M A) : MW A :=
  fun w s t =>
    match _get_client w s t with
    | (Val _, s', t') =>
        match _async_client s' with
        | Some c =>
            let '(r, c', t'') := m w c t' in
            (r, mkWrapper (wrapper_server_url s') (Some c'), t'')
        | None => (Raise AttributeError, s', t')
        end
    | (Raise e, s', t') => (Raise e, s', t')
    end.

Definition wrapper_get_quote (category mood : option string) (time_based : bool)
  : MW value :=
  with_client (get_inspirational_quote category mood time_based).
Definition wrapper_get_tip : MW value := with_client get_sleep_hygiene_tip.
Definition wrapper_search (query : string) : MW value :=
  with_client (search_quotes query 5).
Definition wrapper_get_daily_wisdom (include_tip : bool) : MW value :=
  with_client (get_daily_wisdom include_tip).
Definition wrapper_status : MW value := with_client get_server_status.

(** [close], which is also what [__aexit__] of the wrapper runs. *)
Definition wrapper_close : MW unit :=
  fun w s t =>
    match _async_client s with
    | Some c =>
        let '(r, c', t') := aexit w c t in
        (r, mkWrapper (wrapper_server_url s) (Some c'), t')
    | None => (Val tt, s, t)
    end.

(** The four queries through the wrapper; its [search] always asks for the
    default limit. *)
Definition wrapper_call (q : Query) : MW value :=
  match q with
  | Quote category mood time_based => wrapper_get_quote category mood time_based
  | Tip => wrapper_get_tip
  | Search query _ => wrapper_search query
  | Wisdom include_tip => wrapper_get_daily_wisdom include_tip
  end.

(** *** The [/mcp] endpoint of the provider *)

Definition mcp_endpoint (request : list (string * value)) (draw : nat) : value :=
  let body : res value :=
    let method := default (VStr "get_inspirational_quote") (dict_lookup "method" request) in
    let params := default (VDict []) (dict_lookup "params" request) in
    if eq_str method "get_inspirational_quote" then
      q ← Provider.get_random_quote Provider.sleep_db draw [];
      mret (VDict [("result", Provider.asdict q)])
    else if eq_str method "get_sleep_hygiene_tip" then
      tip ← Provider.get_sleep_tip Provider.sleep_db draw;
      mret (VDict [("result", Provider.asdict tip)])
    else mret (VDict [("error", VStr ("Método desconocido: " +:+ fmt method))]) in
  match body with
  | Val b => b
  | Raise e => VDict [("error", VStr (str_exn e))]
  end.

(** *** The client in front of the provider *)

(** [provider_answer q reply]: [reply] is what the provider's REST handler of
    the endpoint that [q] addresses returns ([get_quote_api] for a quote,
    [get_tip_api] for a tip, [search_quotes_api] for a search,
    [get_wisdom_api] for the daily wisdom), for whatever arguments reached the
    handler. How the web framework routes a URL to a handler and binds the
    path and the query parameters to its arguments is not part of this
    program, so the arguments of the handler are not tied to those of the
    query: a search whose text holds a question mark reaches the handler with
    the text cut there, and one whose text is empty or holds a slash reaches
    no handler at all, in which case no reply is a [provider_answer]. The
    draws, the clock and the time stamp are the provider's. *)
Inductive provider_answer : Query -> Reply -> Prop :=
  | answer_quote category mood time_based category' mood' time_based'
      draw now timestamp :
      provider_answer (Quote category mood time_based)
        (Provider.get_quote_api str_exn category' mood' time_based'
           draw now timestamp)
  | answer_tip draw timestamp :
      provider_answer Tip (Provider.get_tip_api str_exn draw timestamp)
  | answer_search query limit query' limit' timestamp :
      provider_answer (Search query limit)
        (Provider.search_quotes_api str_lower str_exn query' limit' timestamp)
  | answer_wisdom include_tip include_tip' draw_quote draw_tip now timestamp :
      provider_answer (Wisdom include_tip)
        (Provider.get_wisdom_api str_exn include_tip' draw_quote draw_tip
           now timestamp).

(* ===================================================================== *)
(** ** Notions used by the properties                                     *)
(* ===================================================================== *)

(** A URL answers the health probe with a healthy signal: status 200 and a
    JSON object whose ["status"] is ["healthy"]. *)
Definition healthy (w : World) (url : string) : bool :=
  match net w (health_request url) with
  | Response status (Some data) =>
      (status =? 200)%Z &&
      match get_method data "status" with
      | Val st => eq_str st "healthy"
      | Raise _ => false
      end
  | _ => false
  end.

(** The client once [test_connection] has accepted [url]. *)
Definition bound_to (url : string) (c : Client) : Client :=
  set_is_connected true (set_server_url url c).

(** The invariant of returned dictionaries: the fields [success], [message]
    and [source] are present, and [success] is [True] exactly for the source
    ['remote_server'], [False] exactly for ['offline_fallback']. *)
Definition result_ok (r : value) : Prop :=
  ∃ d s message source,
    r = VDict d ∧
    dict_lookup "success" d = Some (VBool s) ∧
    dict_lookup "message" d = Some message ∧
    dict_lookup "source" d = Some source ∧
    (s = true ↔ source = VStr "remote_server") ∧
    (s = false ↔ source = VStr "offline_fallback").

(** Every cached value is a dictionary satisfying the invariant. *)
Definition cache_ok (c : Client) : Prop :=
  ∀ k e, cache c !! k = Some e → result_ok (entry_data e).

(** What a call on a connected client amounts to: a cache hit, or else one
    request whose formatted answer is stored (by the kinds that cache) and
    returned, the offline response standing in for every failure. *)
Definition outcome (q : Query) (w : World) (c : Client)
  : res value * Client * list Request :=
  let offline := _get_offline_response (kind q) in
  match cache_hit q w c with
  | Some cached_data => (Val cached_data, c, [])
  | None =>
      if session c then
        match net w (request_of q c) with
        | Failed => (Val offline, c, [request_of q c])
        | Response status body =>
            if (status =? 200)%Z then
              match body with
              | None => (Val offline, c, [request_of q c])
              | Some data =>
                  match format_of q data (clock w 1) with
                  | Raise _ => (Val offline, c, [request_of q c])
                  | Val r =>
                      (Val r,
                       match cache_key_of q (clock w 0) with
                       | Some cache_key => store q cache_key r (clock w 1) c
                       | None => c
                       end,
                       [request_of q c])
                  end
              end
            else (Val offline, c, [request_of q c])
        end
      else (Val offline, c, [])
  end.

Arguments _get_offline_response : simpl never.
Arguments format_quote : simpl never.
Arguments format_tip : simpl never.
Arguments format_search : simpl never.
Arguments format_wisdom : simpl never.
Arguments quote_cache_key : simpl never.
Arguments wisdom_cache_key : simpl never.
Arguments quote_params : simpl never.

(* ===================================================================== *)
(** ** Properties of the client                                           *)
(* ===================================================================== *)

Ltac unfold_M :=
  unfold run, try_except, session_get, response_json, datetime_now,
    modify_self, get_self, lift, mbind, M_bind, mret, M_ret in *.

(** **** The cache primitives *)

Lemma _get_cache_run cache_key w c t :
  _get_cache cache_key w c t =
  (Val (cache_read c cache_key (clock w (length t))), c, t).
Proof.
  unfold _get_cache, _is_cache_valid, cache_read. unfold_M.
  destruct (cache c !! cache_key) as [e|] eqn:E; simpl; [|reflexivity].
  destruct (_ <? _)%Z; simpl; [rewrite E|]; reflexivity.
Qed.

Lemma _set_cache_run cache_key data w c t :
  _set_cache cache_key data w c t =
  (Val tt,
   set_cache (<[cache_key := mkEntry data (dt_timestamp (clock w (length t)))]> (cache c)) c,
   t).
Proof. reflexivity. Qed.

(** **** The closed form of a call *)

Lemma call_not_connected q w c t :
  is_connected c = false ->
  call q w c t = (Val (_get_offline_response (kind q)), c, t).
Proof.
  intros H.
  destruct q; simpl;
    unfold get_inspirational_quote, get_sleep_hygiene_tip, search_quotes,
      get_daily_wisdom;
    unfold_M; rewrite H; reflexivity.
Qed.

Ltac case_reply w :=
  destruct (session _); simpl; [|reflexivity];
  destruct (net w _) as [|status [data|]]; simpl; [reflexivity| |];
  (destruct (status =? 200)%Z; simpl; [|reflexivity]).

Lemma run_call q w c :
  is_connected c = true -> run (call q) w c = outcome q w c.
Proof.
  intros H. unfold outcome, cache_hit.
  destruct q; simpl;
    unfold get_inspirational_quote, get_sleep_hygiene_tip, search_quotes,
      get_daily_wisdom;
    unfold_M; rewrite H; simpl; rewrite ?_get_cache_run; simpl.
  - destruct (truthy _); [reflexivity|].
    case_reply w; [|reflexivity].
    destruct (format_quote _ _); reflexivity.
  - destruct (truthy _); [reflexivity|].
    case_reply w; [|reflexivity].
    destruct (format_tip _); reflexivity.
  - case_reply w; [|reflexivity].
    destruct (format_search _ _); reflexivity.
  - destruct (truthy _); [reflexivity|].
    case_reply w; [|reflexivity].
    destruct (format_wisdom _ _ _); reflexivity.
Qed.

(** **** Endpoint discovery *)

Lemma probe_run url w c t :
  session c = true ->
  probe url w c t =
  (Val (healthy w url),
   if healthy w url then bound_to url c else c,
   (t ++ [health_request url])%list).
Proof.
  intros Hs. unfold probe, healthy, health_request. unfold_M. rewrite Hs.
  destruct (net w _) as [|status [data|]]; simpl; try reflexivity.
  - destruct (status =? 200)%Z; simpl; [|reflexivity].
    destruct (get_method data "status") as [st|]; simpl; [|reflexivity].
    destruct (eq_str st "healthy"); reflexivity.
  - destruct (status =? 200)%Z; reflexivity.
Qed.

Lemma probe_no_session url w c t :
  session c = false -> probe url w c t = (Val false, c, t).
Proof.
  intros Hs. unfold probe. unfold_M. rewrite Hs. reflexivity.
Qed.

Lemma loop_step url rest w c t :
  test_connection_loop (url :: rest) w c t =
  match probe url w c t with
  | (Val true, c', t') => (Val true, c', t')
  | (Val false, c', t') => test_connection_loop rest w c' t'
  | (Raise e, c', t') => (Raise e, c', t')
  end.
Proof.
  simpl. unfold mbind, M_bind.
  destruct (probe url w c t) as [[[[|]|e] c'] t']; reflexivity.
Qed.

(** Unhealthy candidates at the head of the list are probed once each, in
    order, and left behind. *)
Lemma loop_skips_unhealthy pre rest w c t :
  session c = true ->
  Forall (λ url, healthy w url = false) pre ->
  test_connection_loop (pre ++ rest) w c t =
  test_connection_loop rest w c (t ++ map health_request pre)%list.
Proof.
  intros Hs Hpre. revert t.
  induction Hpre as [|url pre Hurl _ IH]; intros t.
  - simpl. rewrite app_nil_r. reflexivity.
  - rewrite <- app_comm_cons, loop_step, probe_run, Hurl by assumption.
    rewrite IH, <- app_assoc. reflexivity.
Qed.

Lemma loop_binds_healthy url rest w c t :
  session c = true ->
  healthy w url = true ->
  test_connection_loop (url :: rest) w c t =
  (Val true, bound_to url c, (t ++ [health_request url])%list).
Proof.
  intros Hs Hurl. rewrite loop_step, probe_run, Hurl by assumption. reflexivity.
Qed.

(** With no healthy candidate the loop runs to its end; without a session no
    request leaves the client at all. *)
Lemma loop_exhausted urls w c t :
  Forall (λ url, healthy w url = false) urls ->
  ∃ t', test_connection_loop urls w c t = (Val false, set_is_connected false c, t').
Proof.
  intros Hall. revert t.
  induction Hall as [|url urls Hurl _ IH]; intros t.
  - eexists. reflexivity.
  - rewrite loop_step. destruct (session c) eqn:Hs.
    + rewrite probe_run, Hurl by assumption. apply IH.
    + rewrite probe_no_session by assumption. apply IH.
Qed.

Lemma test_connection_run w c t :
  test_connection w c t = test_connection_loop (candidates c) w c t.
Proof. reflexivity. Qed.

Lemma test_connection_returns w c t :
  ∃ b c' t', test_connection w c t = (Val b, c', t').
Proof.
  rewrite test_connection_run. generalize (candidates c) as urls.
  intros urls. revert c t.
  induction urls as [|url rest IH]; intros c t; [repeat eexists|].
  rewrite loop_step. destruct (session c) eqn:Hs.
  - rewrite probe_run by assumption.
    destruct (healthy w url); [repeat eexists|apply IH].
  - rewrite probe_no_session by assumption. apply IH.
Qed.

(** The first healthy URL of a list that has one. *)
Lemma first_healthy_split w urls :
  (∃ u, In u urls ∧ healthy w u = true) ->
  ∃ pre url post,
    urls = (pre ++ url :: post)%list ∧
    Forall (λ u, healthy w u = false) pre ∧
    healthy w url = true.
Proof.
  induction urls as [|u0 urls IH]; intros (u & Hin & Hu); [destruct Hin|].
  destruct (healthy w u0) eqn:H0.
  - exists [], u0, urls. auto.
  - destruct IH as (pre & url & post & -> & Hpre & Hurl).
    { destruct Hin as [->|Hin]; [congruence|eauto]. }
    exists (u0 :: pre), url, post. auto.
Qed.

(** C2 (as amended). On a client with an open session, when some candidate
    answers the health probe with a healthy signal, [test_connection] binds
    to the first such candidate in list order and reports success; the
    requests it issues are exactly one health probe for each position of the
    candidate list up to and including that candidate, in order, and none for
    a later position. *)
Theorem test_connection_binds_first_healthy w c :
  session c = true ->
  (∃ u, In u (candidates c) ∧ healthy w u = true) ->
  ∃ pre url post,
    candidates c = (pre ++ url :: post)%list ∧
    Forall (λ u, healthy w u = false) pre ∧
    healthy w url = true ∧
    run test_connection w c =
    (Val true, bound_to url c, map health_request (pre ++ [url])).
Proof.
  intros Hs Hex.
  destruct (first_healthy_split w _ Hex) as (pre & url & post & Hc & Hpre & Hurl).
  exists pre, url, post. repeat (split; [assumption|]).
  unfold run. rewrite test_connection_run, Hc.
  rewrite loop_skips_unhealthy, loop_binds_healthy by assumption.
  rewrite map_app. reflexivity.
Qed.

(** C5. When no candidate is healthy, [test_connection] answers [False] and
    leaves the client disconnected; from then on each of the four queries, in
    any world, returns the static offline response of its kind, issues no
    request and leaves the client as it was. *)
Theorem no_healthy_candidate_goes_offline w c :
  Forall (λ u, healthy w u = false) (candidates c) ->
  let c' := client_of (run test_connection w c) in
  result_of (run test_connection w c) = Val false ∧
  is_connected c' = false ∧
  ∀ q w', run (call q) w' c' = (Val (_get_offline_response (kind q)), c', []).
Proof.
  intros Hall. unfold run at 1 2. simpl.
  rewrite test_connection_run.
  destruct (loop_exhausted _ w c [] Hall) as [t' ->].
  unfold result_of, client_of. simpl.
  split; [reflexivity|]. split; [reflexivity|].
  intros q w'. apply call_not_connected. reflexivity.
Qed.

(** **** Formatted answers *)

Ltac inv_binds H :=
  unfold mbind, res_bind, mret, res_ret in H;
  repeat match type of H with
         | context [match ?x with _ => _ end] =>
             let E := fresh "E" in destruct x eqn:E; try discriminate H
         end.

(** Every dictionary a query formats is a remote success. *)
Lemma format_of_ok q data now r :
  format_of q data now = Val r ->
  result_ok r ∧ truthy r = true ∧
  getitem r "success" = Val (VBool true) ∧
  getitem r "source" = Val (VStr "remote_server").
Proof.
  intros H.
  destruct q; simpl in H;
    unfold format_quote, format_tip, format_search, format_wisdom in H;
    inv_binds H; injection H as <-;
    (split; [|split; [reflexivity|split; reflexivity]]);
    eexists _, true, _, _;
    (split; [reflexivity|]); repeat (split; [reflexivity|]);
    split; split; intros; congruence.
Qed.

Lemma offline_response_ok q :
  result_ok (_get_offline_response (kind q)) ∧
  getitem (_get_offline_response (kind q)) "success" = Val (VBool false) ∧
  getitem (_get_offline_response (kind q)) "source" = Val (VStr "offline_fallback").
Proof.
  destruct q; (split; [|split; reflexivity]);
    eexists _, false, _, _;
    (split; [reflexivity|]); repeat (split; [reflexivity|]);
    split; split; intros; congruence.
Qed.

(** **** Cache writes and cache hits *)

Lemma store_lookup q cache_key r now c :
  cache (store q cache_key r now c) !! cache_key
  = Some (mkEntry r (dt_timestamp now)).
Proof. simpl. apply lookup_insert_eq. Qed.

Lemma cache_hit_after_store q w w' c cache_key r :
  truthy r = true ->
  cache_key_of q (clock w' 0) = Some cache_key ->
  (dt_timestamp (clock w' 0) - dt_timestamp (clock w 1)
   < cache_ttl (store q cache_key r (clock w 1) c))%Z ->
  cache_hit q w' (store q cache_key r (clock w 1) c) = Some r.
Proof.
  intros Hr Hk Ht. unfold cache_hit, cache_read.
  rewrite Hk, store_lookup. simpl entry_timestamp. simpl entry_data.
  apply Z.ltb_lt in Ht. rewrite Ht, Hr. reflexivity.
Qed.

Lemma outcome_fetched q w c cache_key data r :
  cache_key_of q (clock w 0) = Some cache_key ->
  cache_hit q w c = None ->
  session c = true ->
  net w (request_of q c) = Response 200 (Some data) ->
  format_of q data (clock w 1) = Val r ->
  outcome q w c = (Val r, store q cache_key r (clock w 1) c, [request_of q c]).
Proof.
  intros Hk Hmiss Hs Hnet Hfmt. unfold outcome.
  rewrite Hmiss, Hs, Hnet, Hfmt, Hk. reflexivity.
Qed.


(** C4 (as amended). When a first call fetches its answer from the server
    and the same query is asked again less than the TTL of 300 seconds after
    the answer was formatted: for the quote, the tip and the daily wisdom, a
    second call that derives the same cache key (for the daily wisdom: on the
    same calendar day) returns the identical dictionary, whatever the server
    would answer by then; it issues no request and leaves the client
    unchanged. For the search, which does not use the cache, the second call
    sends its request again and returns what the server answers then. *)
Theorem cache_idempotence q w1 w2 c data r :
  is_connected c = true ->
  session c = true ->
  cache_ttl c = 300%Z ->
  cache_hit q w1 c = None ->
  net w1 (request_of q c) = Response 200 (Some data) ->
  format_of q data (clock w1 1) = Val r ->
  (dt_timestamp (clock w2 0) - dt_timestamp (clock w1 1) < 300)%Z ->
  let first := run (call q) w1 c in
  let second := run (call q) w2 (client_of first) in
  result_of first = Val r ∧
  match cache_key_of q (clock w1 0) with
  | Some cache_key =>
      cache_key_of q (clock w2 0) = Some cache_key ->
      result_of second = Val r ∧
      requests_of second = [] ∧
      client_of second = client_of first
  | None =>
      (∃ query limit, q = Search query limit) ∧
      requests_of second = [request_of q c] ∧
      ∀ data2 r2,
        net w2 (request_of q c) = Response 200 (Some data2) ->
        format_of q data2 (clock w2 1) = Val r2 ->
        result_of second = Val r2
  end.
Proof.
  intros Hc Hs Httl Hmiss Hnet Hfmt Ht.
  destruct (format_of_ok _ _ _ _ Hfmt) as (_ & Htrue & _).
  rewrite run_call by assumption.
  destruct (cache_key_of q (clock w1 0)) as [cache_key|] eqn:Hk.
  - rewrite (outcome_fetched _ _ _ _ _ _ Hk Hmiss Hs Hnet Hfmt).
    unfold client_of at 1 2 3; simpl fst; simpl snd.
    split; [reflexivity|]. intros Hk2.
    rewrite run_call by assumption.
    unfold outcome. rewrite (cache_hit_after_store q w1 w2 c cache_key r); auto.
    simpl cache_ttl. destruct q; simpl; lia.
  - destruct q as [| |query limit|]; try discriminate Hk.
    assert (outcome (Search query limit) w1 c
            = (Val r, c, [request_of (Search query limit) c])) as ->
      by (unfold outcome; rewrite Hmiss, Hs, Hnet, Hfmt; reflexivity).
    unfold client_of at 1; cbn [fst snd].
    rewrite run_call by assumption.
    unfold result_of, requests_of; cbn [fst snd].
    split; [reflexivity|]. split; [eauto|].
    unfold outcome.
    change (cache_hit (Search query limit) w2 c) with (@None value). rewrite Hs.
    split.
    + destruct (net w2 _) as [|status [data'|]]; [reflexivity| |];
        (destruct (status =? 200)%Z; [|reflexivity]); [|reflexivity].
      destruct (format_of (Search query limit) data' (clock w2 1)); reflexivity.
    + intros data2 r2 Hnet2 Hfmt2. rewrite Hnet2.
      change (200 =? 200)%Z with true. cbv iota. rewrite Hfmt2. reflexivity.
Qed.

(** No query ever raises: every path ends with a returned dictionary. *)
Lemma call_returns q w c :
  ∃ r, result_of (run (call q) w c) = Val r.
Proof.
  destruct (is_connected c) eqn:Hc.
  2:{ unfold run. rewrite call_not_connected by assumption. eauto. }
  rewrite run_call by assumption. unfold outcome.
  destruct (cache_hit q w c); [eauto|].
  destruct (session c); [|eauto].
  destruct (net w _) as [|status [data|]]; [eauto| |];
    (destruct (status =? 200)%Z; [|eauto]); [|eauto].
  destruct (format_of q data (clock w 1)); eauto.
Qed.

(** **** Which bodies are accepted *)

Lemma getitem_field v k :
  getitem v k =
  match field v k with
  | Some x => Val x
  | None => Raise (match v with VDict _ => KeyError | _ => TypeError end)
  end.
Proof.
  destruct v; reflexivity.
Qed.

Lemma contains_field k d :
  contains k (VDict d) = Val (has_field (VDict d) k).
Proof.
  unfold contains, has_field, field.
  destruct (dict_lookup k d) as [x|].
  - rewrite bool_decide_true by eauto. reflexivity.
  - rewrite bool_decide_false by (intros [x Hx]; discriminate). reflexivity.
Qed.

Ltac body_step :=
  match goal with
  | |- context [getitem ?v ?k] =>
      rewrite (getitem_field v k);
      destruct (field v k) as [?|] eqn:?
  | |- context [match ?x with VNone => _ | _ => _ end] => is_var x; destruct x
  | |- context [if ?b then _ else _] => is_var b; destruct b
  end;
  cbn beta iota delta [andb orb negb].

Lemma render_results_accepts i l message :
  if forallb result_item_ok l
  then ∃ m, render_results i l message = Val m
  else ∃ e, render_results i l message = Raise e.
Proof.
  revert i message. induction l as [|item l IH]; intros i message.
  - simpl. eauto.
  - cbn [forallb render_results]. unfold result_item_ok at 1.
    unfold has_field, has_str_field, mbind, res_bind, replace_title.
    repeat body_step; eauto.
    apply IH.
Qed.

(** The formatting of a query goes through exactly on the bodies it
    accepts. *)
Lemma format_of_accepted q data now :
  if accepted_body q data
  then ∃ r, format_of q data now = Val r
  else ∃ e, format_of q data now = Raise e.
Proof.
  destruct q as [category mood time_based| |query limit|include_tip];
    unfold accepted_body, format_of, format_quote, format_tip, format_search,
      format_wisdom, has_field, has_str_field, subfield,
      mbind, res_bind, mret, res_ret, replace_title, title.
  - repeat body_step; eauto.
  - repeat body_step; eauto.
  - rewrite (getitem_field data "results").
    destruct (field data "results") as [results|] eqn:Hres;
      cbn beta iota delta [andb orb negb]; [|eauto].
    unfold search_message.
    destruct (truthy results) eqn:Htruthy; cbn beta iota delta [andb orb negb].
    + destruct results as [|b|z|s|l|d]; cbn beta iota delta [andb orb negb];
        try solve [eauto].
      pose proof (render_results_accepts 1 l
        (unlines [
           "🔍 RESULTADOS DE BÚSQUEDA: " +:+ dq +:+ query +:+ dq;
           EmptyString;
           "📚 Encontré " +:+ str_of_nat (length l) +:+ " cita(s) para ti:";
           EmptyString;
           EmptyString ])) as Hrender.
      destruct (forallb result_item_ok l); destruct Hrender as [m ->];
        cbn beta iota delta [andb]; [|eauto].
      repeat body_step; eauto.
    + repeat body_step; eauto.
  - rewrite (getitem_field data "daily_quote").
    destruct (field data "daily_quote") as [quote_data|] eqn:Hq;
      cbn beta iota delta [andb orb negb]; [|eauto].
    destruct data as [|b|z|s|l|d]; try discriminate Hq.
    rewrite contains_field. unfold has_field. cbn [get_method].
    repeat body_step; eauto.
Qed.

(** C6 (as amended). For each kind, on a connected client whose cache does
    not answer, the call never raises. When the request fails (no usable
    session, a transport exception, a status other than 200, a body that is
    not JSON, or a body the query does not accept: a field it subscripts is
    missing, or a field on which it calls a string method is not a string) the
    call returns the static offline response of its kind, which carries
    [success: False], and the client, its cache included, is as before the
    call. In every other case it returns a [success: True] dictionary: a body
    that has the subscripted fields is taken as it is, whatever the types of
    the values that are only passed on or rendered. *)
Theorem failed_request_gives_offline_response q w c :
  is_connected c = true ->
  cache_hit q w c = None ->
  (∃ r, result_of (run (call q) w c) = Val r) ∧
  (request_fails q w c ->
   run (call q) w c =
     (Val (_get_offline_response (kind q)), c,
      if session c then [request_of q c] else []) ∧
   getitem (_get_offline_response (kind q)) "success" = Val (VBool false)) ∧
  (¬ request_fails q w c ->
   ∃ r, result_of (run (call q) w c) = Val r ∧
        getitem r "success" = Val (VBool true)).
Proof.
  intros Hc Hmiss.
  split; [apply call_returns|].
  rewrite run_call by assumption. unfold outcome. rewrite Hmiss.
  split.
  - intros Hfail. split; [|apply offline_response_ok].
    destruct Hfail as [Hs|Hnet|status body Hnet Hst|Hnet|data Hnet Hbody].
    + rewrite Hs. reflexivity.
    + destruct (session c); [|reflexivity]. rewrite Hnet. reflexivity.
    + destruct (session c); [|reflexivity]. rewrite Hnet.
      apply Z.eqb_neq in Hst. rewrite Hst. reflexivity.
    + destruct (session c); [|reflexivity]. rewrite Hnet. reflexivity.
    + destruct (session c); [|reflexivity]. rewrite Hnet.
      pose proof (format_of_accepted q data (clock w 1)) as Hfmt.
      rewrite Hbody in Hfmt. destruct Hfmt as [e ->]. reflexivity.
  - intros Hok.
    destruct (session c) eqn:Hs; [|destruct Hok; apply fails_no_session, Hs].
    destruct (net w (request_of q c)) as [|status [data|]] eqn:Hnet.
    + destruct Hok. apply fails_transport, Hnet.
    + destruct (Z.eqb_spec status 200) as [->|Hst];
        [|destruct Hok; eapply fails_status; eassumption].
      pose proof (format_of_accepted q data (clock w 1)) as Hfmt.
      destruct (accepted_body q data) eqn:Hbody;
        [|destruct Hok; eapply fails_payload; eassumption].
      destruct Hfmt as [r Hfmt]. rewrite Hfmt.
      exists r. split; [reflexivity|].
      apply format_of_ok in Hfmt as (_ & _ & Hsucc & _). exact Hsucc.
    + destruct (Z.eqb_spec status 200) as [->|Hst].
      * destruct Hok. apply fails_json, Hnet.
      * destruct Hok. eapply fails_status; eassumption.
Qed.

(** C7. When the client is connected and the server answers a search with
    status 200 and a body whose result list is empty, [search_quotes] returns
    [success: True] with the empty result list and the message that quotes the
    query and says that no quote matches the search; this is not the offline
    response of the search. *)
Theorem empty_search_is_a_success query limit w c data total_found timestamp :
  is_connected c = true ->
  session c = true ->
  net w (request_of (Search query limit) c) = Response 200 (Some data) ->
  getitem data "results" = Val (VList []) ->
  getitem data "total_found" = Val total_found ->
  getitem data "timestamp" = Val timestamp ->
  let r := VDict [ ("success", VBool true);
                   ("message", VStr (unlines [
                      "🔍 BÚSQUEDA: " +:+ dq +:+ query +:+ dq;
                      EmptyString;
                      "❌ No se encontraron citas que coincidan con tu búsqueda.";
                      EmptyString;
                      "💡 Intenta con términos como: sueño, descanso, noche, relajación, paz" ]));
                   ("results", VList []);
                   ("total_found", total_found);
                   ("source", VStr "remote_server");
                   ("timestamp", timestamp) ] in
  run (search_quotes query limit) w c
    = (Val r, c, [request_of (Search query limit) c]) ∧
  r ≠ _get_offline_response "search".
Proof.
  intros Hc Hs Hnet Hres Htot Hts r.
  split; [|discriminate].
  change (search_quotes query limit) with (call (Search query limit)).
  rewrite run_call by assumption. unfold outcome.
  simpl cache_hit. rewrite Hs, Hnet. simpl Z.eqb. cbv iota.
  simpl format_of. unfold format_search.
  rewrite Hres. simpl. rewrite Htot. simpl. rewrite Hts. reflexivity.
Qed.

(** **** The invariant of returned dictionaries *)

Lemma cache_hit_cached q w c r :
  cache_hit q w c = Some r ->
  ∃ k e, cache c !! k = Some e ∧ entry_data e = r.
Proof.
  unfold cache_hit, cache_read. intros H.
  destruct (cache_key_of q (clock w 0)) as [k|]; [|discriminate].
  destruct (cache c !! k) as [e|] eqn:E; [|discriminate].
  destruct (_ <? _)%Z; [|discriminate].
  destruct (truthy (entry_data e)); [|discriminate].
  injection H as <-. eauto.
Qed.

Lemma cache_ok_store q cache_key r now c :
  result_ok r -> cache_ok c -> cache_ok (store q cache_key r now c).
Proof.
  intros Hr Hc k e. simpl. rewrite lookup_insert.
  destruct (decide (cache_key = k)); [|apply Hc].
  intros [= <-]. exact Hr.
Qed.

(** A call returns a dictionary satisfying the invariant and keeps the cache
    in order, provided the cache was in order. *)
Lemma call_ok q w c :
  cache_ok c ->
  cache_ok (client_of (run (call q) w c)) ∧
  ∃ r, result_of (run (call q) w c) = Val r ∧ result_ok r.
Proof.
  intros Hok.
  pose proof (offline_response_ok q) as (Hoff & _).
  destruct (is_connected c) eqn:Hc.
  2:{ unfold run. rewrite call_not_connected by assumption. eauto. }
  rewrite run_call by assumption. unfold outcome.
  destruct (cache_hit q w c) as [r|] eqn:Hhit.
  { apply cache_hit_cached in Hhit as (k & e & He & <-).
    split; [exact Hok|]. eexists. split; [reflexivity|]. eapply Hok, He. }
  destruct (session c); [|eauto].
  destruct (net w _) as [|status [data|]]; [eauto| |];
    (destruct (status =? 200)%Z; [|eauto]); [|eauto].
  destruct (format_of q data (clock w 1)) as [r|e] eqn:Hfmt; [|eauto].
  apply format_of_ok in Hfmt as (Hr & _).
  split; [|eauto].
  unfold client_of; simpl.
  destruct (cache_key_of q (clock w 0)); [apply cache_ok_store|]; assumption.
Qed.

Lemma loop_keeps_cache urls w c t :
  cache (client_of (test_connection_loop urls w c t)) = cache c.
Proof.
  revert c t. induction urls as [|url rest IH]; intros c t; [reflexivity|].
  rewrite loop_step. destruct (session c) eqn:Hs.
  - rewrite probe_run by assumption. destruct (healthy w url); [reflexivity|apply IH].
  - rewrite probe_no_session by assumption. apply IH.
Qed.

Lemma perform_keeps_cache_ok op w c :
  cache_ok c -> cache_ok (client_of (run (perform op) w c)).
Proof.
  intros Hok. destruct op.
  - unfold cache_ok, run, perform, aenter, test_connection. unfold_M.
    pose proof (loop_keeps_cache (candidates (set_session true c))
      w (set_session true c) []) as Hk.
    destruct (test_connection_loop _ w _ []) as [[[b|e] c'] t'];
      unfold client_of in *; simpl in *; rewrite Hk; exact Hok.
  - unfold run, perform, aexit. unfold_M. destruct (session c); exact Hok.
  - unfold cache_ok, run, perform, test_connection. unfold_M.
    pose proof (loop_keeps_cache (candidates c) w c []) as Hk.
    destruct (test_connection_loop _ w c []) as [[[b|e] c'] t'];
      unfold client_of in *; simpl in *; rewrite Hk; exact Hok.
  - apply call_ok, Hok.
Qed.

Lemma reachable_cache_ok c :
  reachable c -> cache_ok c.
Proof.
  induction 1 as [url|c op w _ IH].
  - intros k e. simpl. rewrite lookup_empty. discriminate.
  - apply perform_keeps_cache_ok, IH.
Qed.

(** C9. Each of the four queries, called on a client in any state it can
    reach from its construction and in any world, returns a dictionary that
    carries the fields [success], [message] and [source], with [success] being
    [True] exactly when [source] is ['remote_server'] and [False] exactly when
    [source] is ['offline_fallback']. *)
Theorem returned_results_satisfy_invariant c q w :
  reachable c ->
  ∃ r, result_of (run (call q) w c) = Val r ∧ result_ok r.
Proof.
  intros Hreach. apply call_ok, reachable_cache_ok, Hreach.
Qed.

(* --------------------------------------------------------------------- *)
(** *** Further properties of the client                                  *)
(* --------------------------------------------------------------------- *)

(** **** What the methods leave alone *)

(** The client after a call: the same, or the same with one cache entry
    written for a freshly formatted answer. *)
Lemma call_client q w c :
  client_of (run (call q) w c) = c ∨
  ∃ cache_key data r,
    cache_key_of q (clock w 0) = Some cache_key ∧
    format_of q data (clock w 1) = Val r ∧
    client_of (run (call q) w c) = store q cache_key r (clock w 1) c.
Proof.
  destruct (is_connected c) eqn:Hc.
  2:{ left. unfold run. rewrite call_not_connected by assumption. reflexivity. }
  rewrite run_call by assumption. unfold outcome.
  destruct (cache_hit q w c); [left; reflexivity|].
  destruct (session c); [|left; reflexivity].
  destruct (net w _) as [|status [data|]]; [left; reflexivity| |];
    (destruct (status =? 200)%Z; [|left; reflexivity]); [|left; reflexivity].
  destruct (format_of q data (clock w 1)) as [r|e] eqn:Hfmt; [|left; reflexivity].
  destruct (cache_key_of q (clock w 0)) as [k|] eqn:Hk; [|left; reflexivity].
  right. exists k, data, r. auto.
Qed.

(** X1. A query never touches the connection: whatever the server answers,
    failures included, the bound URL, the fallback list, the session and
    [is_connected] are after the call what they were before. *)
Theorem query_keeps_connection_state q w c :
  let c' := client_of (run (call q) w c) in
  server_url c' = server_url c ∧
  fallback_urls c' = fallback_urls c ∧
  session c' = session c ∧
  is_connected c' = is_connected c.
Proof.
  intros c'. subst c'.
  destruct (call_client q w c) as [->|(k & data & r & _ & _ & ->)];
    repeat split; reflexivity.
Qed.

(** The discovery loop only ever writes [server_url] and [is_connected]. *)
Lemma loop_frame urls w c t :
  let c' := client_of (test_connection_loop urls w c t) in
  cache c' = cache c ∧ cache_ttl c' = cache_ttl c ∧
  session c' = session c ∧ fallback_urls c' = fallback_urls c.
Proof.
  revert c t. induction urls as [|url rest IH]; intros c t; [repeat split|].
  rewrite loop_step. destruct (session c) eqn:Hs.
  - rewrite probe_run by assumption.
    destruct (healthy w url); [repeat split; assumption|].
    rewrite <- Hs. apply IH.
  - rewrite probe_no_session by assumption. rewrite <- Hs. apply IH.
Qed.

(** The cache and the TTL after any operation, in terms of those before. *)
Lemma perform_cache op w c :
  let c' := client_of (run (perform op) w c) in
  (cache c' = cache c ∧ cache_ttl c' = cache_ttl c) ∨
  ∃ q cache_key data now r,
    op = Ask q ∧ format_of q data now = Val r ∧
    cache c' = <[cache_key := mkEntry r (dt_timestamp now)]> (cache c) ∧
    cache_ttl c' = match q with Wisdom _ => 300%Z | _ => cache_ttl c end.
Proof.
  destruct op as [| | |q]; simpl.
  - left. unfold run, aenter, test_connection. unfold_M.
    pose proof (loop_frame (candidates (set_session true c)) w (set_session true c) [])
      as (Hc & Ht & _).
    destruct (test_connection_loop _ w _ []) as [[[b|e] c'] t'];
      unfold client_of in *; simpl in *; auto.
  - left. unfold run, aexit. unfold_M. destruct (session c); auto.
  - left. unfold run, test_connection. unfold_M.
    pose proof (loop_frame (candidates c) w c []) as (Hc & Ht & _).
    destruct (test_connection_loop _ w c []) as [[[b|e] c'] t'];
      unfold client_of in *; simpl in *; auto.
  - destruct (call_client q w c) as [->|(k & data & r & _ & Hfmt & ->)]; [auto|].
    right. exists q, k, data, (clock w 1), r. auto.
Qed.

(** X2. The cache only grows: no operation on the client (entering or
    leaving its context, discovery, any query) removes a key from the cache;
    expired entries stay until the same key is written again. *)
Theorem cache_never_shrinks op w c k :
  is_Some (cache c !! k) ->
  is_Some (cache (client_of (run (perform op) w c)) !! k).
Proof.
  intros Hk.
  destruct (perform_cache op w c) as [[-> _]|(q & k' & data & now & r & _ & _ & -> & _)];
    [assumption|].
  rewrite lookup_insert. destruct (decide (k' = k)); [eauto|assumption].
Qed.

(** X3. Between calls the TTL is always the normal one: in every state the
    client reaches from its construction [cache_ttl] is 300, the widening to
    3600 inside [get_daily_wisdom] never being visible to a later read. *)
Theorem reachable_cache_ttl c :
  reachable c -> cache_ttl c = 300%Z.
Proof.
  induction 1 as [url|c op w _ IH]; [reflexivity|].
  destruct (perform_cache op w c) as [[_ ->]|(q & k & data & now & r & _ & _ & _ & ->)];
    [assumption|].
  destruct q; assumption || reflexivity.
Qed.

(** X4. Failures are never cached, over the whole life of a client: in
    every reachable state each cache entry holds a dictionary with
    [success: True] and source ['remote_server']. *)
Theorem reachable_cache_holds_successes c k e :
  reachable c ->
  cache c !! k = Some e ->
  getitem (entry_data e) "success" = Val (VBool true) ∧
  getitem (entry_data e) "source" = Val (VStr "remote_server").
Proof.
  intros Hreach. revert k e.
  induction Hreach as [url|c op w _ IH]; intros k e.
  - simpl. rewrite lookup_empty. discriminate.
  - destruct (perform_cache op w c)
      as [[-> _]|(q & k' & data & now & r & _ & Hfmt & -> & _)]; [apply IH|].
    rewrite lookup_insert. destruct (decide (k' = k)); [|apply IH].
    intros [= <-]. simpl. apply format_of_ok in Hfmt as (_ & _ & Hsucc & Hsrc).
    split; assumption.
Qed.

(** **** Expiry and sharing of cache entries *)

(** X5. On a connected client with an open session, a query whose cache key
    has no entry, or an entry as old as the TTL or older, goes to the server:
    it issues exactly its one request. *)
Theorem stale_entry_is_refetched q w c cache_key :
  is_connected c = true ->
  session c = true ->
  cache_key_of q (clock w 0) = Some cache_key ->
  (∀ e, cache c !! cache_key = Some e ->
        (cache_ttl c <= dt_timestamp (clock w 0) - entry_timestamp e)%Z) ->
  requests_of (run (call q) w c) = [request_of q c].
Proof.
  intros Hc Hs Hk Hold.
  rewrite run_call by assumption. unfold outcome.
  assert (cache_hit q w c = None) as ->.
  { unfold cache_hit, cache_read. rewrite Hk.
    destruct (cache c !! cache_key) as [e|]; [|reflexivity].
    specialize (Hold e eq_refl). apply Z.ltb_ge in Hold. rewrite Hold. reflexivity. }
  rewrite Hs.
  destruct (net w _) as [|status [data|]]; [reflexivity| |];
    (destruct (status =? 200)%Z; [|reflexivity]); [|reflexivity].
  destruct (format_of q data (clock w 1)); reflexivity.
Qed.

(** The key of a quote query joins its arguments with underscores, so
    arguments that contain underscores can be split in two ways; and no
    category is the same as the category ["None"]. *)
Lemma append_assoc (a b c : string) : (a +:+ b) +:+ c = a +:+ (b +:+ c).
Proof.
  induction a as [|x a IH]; [reflexivity|].
  change (String x ((a +:+ b) +:+ c) = String x (a +:+ (b +:+ c))).
  rewrite IH. reflexivity.
Qed.

Lemma quote_cache_key_collides a b m time_based :
  quote_cache_key (Some (a +:+ "_" +:+ b)) (Some m) time_based
  = quote_cache_key (Some a) (Some (b +:+ "_" +:+ m)) time_based.
Proof.
  unfold quote_cache_key, fmt_opt. simpl default.
  rewrite !append_assoc. reflexivity.
Qed.

(** X6. Two different quote queries can share a cache entry. After the
    query for category [a_b] and mood [m] has been fetched, the query for
    category [a] and mood [b_m] asked within the TTL is served the first
    query's dictionary from the cache, without any request. *)
Theorem colliding_quote_queries_share_entry a b m time_based w1 w2 c data r :
  let q1 := Quote (Some (a +:+ "_" +:+ b)) (Some m) time_based in
  let q2 := Quote (Some a) (Some (b +:+ "_" +:+ m)) time_based in
  is_connected c = true ->
  session c = true ->
  cache_hit q1 w1 c = None ->
  net w1 (request_of q1 c) = Response 200 (Some data) ->
  format_of q1 data (clock w1 1) = Val r ->
  (dt_timestamp (clock w2 0) - dt_timestamp (clock w1 1) < cache_ttl c)%Z ->
  let first := run (call q1) w1 c in
  result_of first = Val r ∧
  run (call q2) w2 (client_of first) = (Val r, client_of first, []).
Proof.
  intros q1 q2 Hc Hs Hmiss Hnet Hfmt Ht first. subst first.
  rewrite run_call by assumption.
  rewrite (outcome_fetched q1 w1 c _ data r eq_refl Hmiss Hs Hnet Hfmt).
  unfold client_of, result_of; simpl fst; simpl snd.
  split; [reflexivity|].
  destruct (format_of_ok _ _ _ _ Hfmt) as (_ & Htrue & _).
  rewrite run_call by assumption. unfold outcome.
  assert (cache_hit q2 w2 (store q1 (quote_cache_key (Some (a +:+ "_" +:+ b)) (Some m) time_based) r (clock w1 1) c)
          = cache_hit q1 w2 (store q1 (quote_cache_key (Some (a +:+ "_" +:+ b)) (Some m) time_based) r (clock w1 1) c)) as Heq.
  { unfold cache_hit. simpl cache_key_of. rewrite <- quote_cache_key_collides. reflexivity. }
  rewrite Heq.
  rewrite (cache_hit_after_store q1 w1 w2 c _ r Htrue); [reflexivity|reflexivity|exact Ht].
Qed.

(** A miss on a client with a session sends the one request of the query. *)
Lemma outcome_requests_on_miss q w c :
  cache_hit q w c = None ->
  session c = true ->
  requests_of (outcome q w c) = [request_of q c].
Proof.
  intros Hmiss Hs. unfold outcome. rewrite Hmiss, Hs.
  destruct (net w _) as [|status [data|]]; [reflexivity| |];
    (destruct (status =? 200)%Z; [|reflexivity]); [|reflexivity].
  destruct (format_of q data (clock w 1)); reflexivity.
Qed.

Lemma length_app (a b : string) :
  String.length (a +:+ b) = String.length a + String.length b.
Proof.
  induction a as [|x a IH]; [reflexivity|].
  change (S (String.length (a +:+ b)) = S (String.length a + String.length b)).
  rewrite IH. reflexivity.
Qed.

Lemma append_cancel_r (a b t : string) : a +:+ t = b +:+ t -> a = b.
Proof.
  revert b. induction a as [|x a IH]; intros [|y b] H.
  - reflexivity.
  - apply (f_equal String.length) in H. rewrite !length_app in H. simpl in H. lia.
  - apply (f_equal String.length) in H. rewrite !length_app in H. simpl in H. lia.
  - change (String x (a +:+ t) = String y (b +:+ t)) in H.
    injection H as -> H. f_equal. apply IH, H.
Qed.

Lemma wisdom_cache_key_date now1 now2 include_tip :
  wisdom_cache_key now1 include_tip = wisdom_cache_key now2 include_tip ->
  dt_strftime now1 "%Y-%m-%d" = dt_strftime now2 "%Y-%m-%d".
Proof.
  unfold wisdom_cache_key. intros H.
  apply (String.app_inj "daily_wisdom_") in H.
  apply append_cancel_r in H. exact H.
Qed.

(** X7. The daily wisdom is cached per calendar day: once fetched, the same
    query asked when the date has changed is sent to the server again (unless
    the new day already has an entry), however little time has passed. *)
Theorem daily_wisdom_is_refetched_on_a_new_day include_tip w1 w2 c data r :
  let q := Wisdom include_tip in
  is_connected c = true ->
  session c = true ->
  cache_hit q w1 c = None ->
  net w1 (request_of q c) = Response 200 (Some data) ->
  format_of q data (clock w1 1) = Val r ->
  dt_strftime (clock w2 0) "%Y-%m-%d" ≠ dt_strftime (clock w1 0) "%Y-%m-%d" ->
  cache c !! wisdom_cache_key (clock w2 0) include_tip = None ->
  let first := run (call q) w1 c in
  result_of first = Val r ∧
  requests_of (run (call q) w2 (client_of first)) = [request_of q c].
Proof.
  intros q Hc Hs Hmiss Hnet Hfmt Hdate Hnew first. subst first.
  rewrite run_call by assumption.
  rewrite (outcome_fetched q w1 c _ data r eq_refl Hmiss Hs Hnet Hfmt).
  unfold client_of, result_of; simpl fst; simpl snd.
  split; [reflexivity|].
  rewrite run_call by assumption.
  rewrite outcome_requests_on_miss; [reflexivity| |assumption].
  subst q. unfold cache_hit, cache_read, store. cbn [cache_key_of cache].
  rewrite lookup_insert_ne, Hnew; [reflexivity|].
  intros Hkey. apply Hdate. symmetry. eapply wisdom_cache_key_date, Hkey.
Qed.

(** **** Discovery: failure, missing session, repetition *)

(** X8. On a client with an open session, when no candidate is healthy
    [test_connection] probes every position of the candidate list once, in
    order, answers [False], and only clears [is_connected]: the bound URL
    stays what it was. *)
Theorem failed_discovery_probes_every_candidate w c :
  session c = true ->
  Forall (λ u, healthy w u = false) (candidates c) ->
  run test_connection w c =
  (Val false, set_is_connected false c, map health_request (candidates c)).
Proof.
  intros Hs Hall. unfold run. rewrite test_connection_run.
  pose proof (loop_skips_unhealthy (candidates c) [] w c [] Hs Hall) as H.
  rewrite app_nil_r in H. rewrite H. reflexivity.
Qed.

Lemma loop_no_session urls w c t :
  session c = false ->
  test_connection_loop urls w c t = (Val false, set_is_connected false c, t).
Proof.
  intros Hs. induction urls as [|url rest IH]; [reflexivity|].
  rewrite loop_step, probe_no_session by assumption. exact IH.
Qed.

(** X9. On a client whose session is not open (never entered, or already
    closed) [test_connection] sends nothing and reports failure, even in a
    world where every server is healthy. *)
Theorem discovery_without_session_fails w c :
  session c = false ->
  run test_connection w c = (Val false, set_is_connected false c, []).
Proof.
  intros Hs. unfold run. rewrite test_connection_run. apply loop_no_session, Hs.
Qed.

(** X10. Running the discovery again after it has succeeded, in the same
    world, probes only the bound URL and leaves the client as it is. *)
Theorem repeated_discovery_is_stable w c :
  session c = true ->
  (∃ u, In u (candidates c) ∧ healthy w u = true) ->
  let c1 := client_of (run test_connection w c) in
  run test_connection w c1 = (Val true, c1, [health_request (server_url c1)]).
Proof.
  intros Hs Hex.
  destruct (first_healthy_split w _ Hex) as (pre & url & post & Hc & Hpre & Hurl).
  unfold run. rewrite (test_connection_run w c), Hc.
  rewrite loop_skips_unhealthy, loop_binds_healthy by assumption.
  unfold client_of; simpl fst; simpl snd.
  rewrite test_connection_run.
  change (candidates (bound_to url c)) with (url :: fallback_urls c).
  rewrite loop_binds_healthy by assumption. reflexivity.
Qed.

(** X11. Leaving the context closes the session but does not clear
    [is_connected]; afterwards no query sends a request: each returns a
    still valid cache entry or the offline response of its kind, and leaves
    the client unchanged. *)
Theorem closed_client_sends_nothing w0 c :
  let c' := client_of (run aexit w0 c) in
  session c' = false ∧ is_connected c' = is_connected c ∧ cache c' = cache c ∧
  ∀ q w,
    requests_of (run (call q) w c') = [] ∧
    client_of (run (call q) w c') = c' ∧
    (result_of (run (call q) w c') = Val (_get_offline_response (kind q)) ∨
     ∃ r, cache_hit q w c' = Some r ∧ result_of (run (call q) w c') = Val r).
Proof.
  intros c'.
  assert (session c' = false ∧ is_connected c' = is_connected c ∧ cache c' = cache c)
    as (Hs & Hc & Hcache).
  { subst c'. unfold run, aexit. unfold_M.
    destruct (session c) eqn:E; repeat split; assumption || reflexivity. }
  repeat (split; [assumption|]).
  intros q w. destruct (is_connected c') eqn:Hconn.
  - rewrite run_call by assumption. unfold outcome.
    destruct (cache_hit q w c') as [r|]; [|rewrite Hs]; repeat split; eauto.
  - unfold run. rewrite call_not_connected by assumption. repeat split; eauto.
Qed.

(** **** get_server_status *)

(** X12. [get_server_status] does not look at [is_connected] and never
    raises: it sends one request to the root of the bound URL when the session
    is open (none otherwise), leaves the client unchanged, and returns a
    dictionary whose [success] and [connected] fields agree and are [True]
    exactly when the reply has status 200 and a JSON body. *)
Theorem server_status_reports_the_reply w c :
  ∃ r, run get_server_status w c
         = (Val r, c,
            if session c then [mkRequest (server_url c +:+ "/") []] else []) ∧
       getitem r "success" = getitem r "connected" ∧
       (getitem r "success" = Val (VBool true) ↔
        session c = true ∧
        ∃ data, net w (mkRequest (server_url c +:+ "/") []) = Response 200 (Some data)).
Proof.
  unfold get_server_status. unfold_M.
  destruct (session c) eqn:Hs; simpl.
  2:{ eexists. split; [reflexivity|]. split; [reflexivity|].
      split; [discriminate|]. intros [? _]. discriminate. }
  destruct (net w _) as [|status [data|]] eqn:Hnet; simpl.
  - eexists. split; [reflexivity|]. split; [reflexivity|].
    split; [discriminate|]. intros (_ & data & ?). discriminate.
  - destruct (status =? 200)%Z eqn:Hst; simpl.
    + apply Z.eqb_eq in Hst as ->.
      eexists. split; [reflexivity|]. split; [reflexivity|]. split; eauto.
    + eexists. split; [reflexivity|]. split; [reflexivity|].
      split; [discriminate|]. intros (_ & data' & [= -> _]). discriminate.
  - destruct (status =? 200)%Z eqn:Hst; simpl;
      (eexists; split; [reflexivity|]; split; [reflexivity|];
       split; [discriminate|]; intros (_ & data' & ?); discriminate).
Qed.

(** **** The wrapper *)

Lemma aenter_offline w c t :
  Forall (λ u, healthy w u = false) (candidates c) ->
  ∃ t', aenter w c t = (Val tt, set_is_connected false (set_session true c), t').
Proof.
  intros Hall. unfold aenter. unfold_M.
  rewrite test_connection_run.
  destruct (loop_exhausted (candidates (set_session true c)) w
              (set_session true c) t Hall) as [t' E].
  rewrite E. eauto.
Qed.

Lemma server_status_sends w c t :
  session c = true ->
  ∃ r, get_server_status w c t
       = (Val r, c, (t ++ [mkRequest (server_url c +:+ "/") []])%list).
Proof.
  intros Hs. unfold get_server_status. unfold_M. rewrite Hs. simpl.
  destruct (net w _) as [|status [data|]]; simpl;
    try destruct (status =? 200)%Z; simpl; eauto.
Qed.

(** X13. The wrapper runs the discovery once, at its first use. When no
    candidate is healthy at that moment, that first call returns the offline
    response, and so does every later call of the four query methods
    ([get_quote], [get_tip], [search], [get_daily_wisdom]) through the
    wrapper, in any world, without a single request: the wrapper never tries
    to connect again. Only [status], which does not look at [is_connected],
    still sends its one request, to the root of the URL the wrapper was
    created with, and leaves the wrapper as it is. *)
Theorem wrapper_never_reconnects url w0 q0 :
  Forall (λ u, healthy w0 u = false) (candidates (new_client url)) ->
  let first := wrapper_call q0 w0 (new_wrapper url) [] in
  let s := first.1.2 in
  first.1.1 = Val (_get_offline_response (kind q0)) ∧
  (∀ q w, wrapper_call q w s [] = (Val (_get_offline_response (kind q)), s, [])) ∧
  (∀ w, ∃ r, wrapper_status w s []
             = (Val r, s, [mkRequest (server_url (new_client url) +:+ "/") []])).
Proof.
  intros Hall.
  destruct (aenter_offline w0 (new_client url) [] Hall) as (t1 & Hent).
  set (c1 := set_is_connected false (set_session true (new_client url))) in *.
  assert (is_connected c1 = false) as Hoff by reflexivity.
  assert (∀ q w t,
    wrapper_call q w (mkWrapper url (Some c1)) t
    = (Val (_get_offline_response (kind q)), mkWrapper url (Some c1), t)) as Hlater.
  { intros q w t.
    pose proof (call_not_connected q w c1 t Hoff) as Hq.
    pose proof (λ query, call_not_connected (Search query 5) w c1 t Hoff) as Hs.
    destruct q; unfold wrapper_call, wrapper_get_quote, wrapper_get_tip,
      wrapper_search, wrapper_get_daily_wisdom, with_client, _get_client;
      simpl in *; rewrite ?Hq, ?Hs; reflexivity. }
  assert (wrapper_call q0 w0 (new_wrapper url) []
          = (Val (_get_offline_response (kind q0)), mkWrapper url (Some c1), t1)) as ->.
  { pose proof (call_not_connected q0 w0 c1 t1 Hoff) as Hq.
    pose proof (λ query, call_not_connected (Search query 5) w0 c1 t1 Hoff) as Hs.
    destruct q0; unfold wrapper_call, wrapper_get_quote, wrapper_get_tip,
      wrapper_search, wrapper_get_daily_wisdom, with_client, _get_client;
      simpl in *; rewrite Hent; simpl; rewrite ?Hq, ?Hs; reflexivity. }
  cbn [fst snd]. split; [reflexivity|]. split; [intros q w; apply Hlater|].
  intros w.
  destruct (server_status_sends w c1 [] eq_refl) as [r Hr].
  exists r. unfold wrapper_status, with_client, _get_client.
  cbn [_async_client wrapper_server_url]. rewrite Hr. reflexivity.
Qed.

Lemma call_without_session q w c :
  session c = false -> ∃ r, run (call q) w c = (Val r, c, []).
Proof.
  intros Hs. destruct (is_connected c) eqn:Hconn.
  - rewrite run_call by assumption. unfold outcome.
    destruct (cache_hit q w c); [|rewrite Hs]; eauto.
  - unfold run. rewrite call_not_connected by assumption. eauto.
Qed.

(** X14. [close] does not discard the client of the wrapper: a wrapper that
    has been used and closed keeps its closed client, and every later call
    through it ends normally without sending any request (no new session is
    opened, no discovery is run). *)
Theorem closed_wrapper_sends_nothing w0 s c :
  _async_client s = Some c ->
  let s' := (wrapper_close w0 s []).1.2 in
  ∃ c', _async_client s' = Some c' ∧ session c' = false ∧
    ∀ q w, ∃ r, wrapper_call q w s' [] = (Val r, s', []).
Proof.
  intros Hsome. unfold wrapper_close. rewrite Hsome.
  assert (∃ c', aexit w0 c [] = (Val tt, c', []) ∧ session c' = false)
    as (c' & -> & Hs).
  { unfold aexit. unfold_M. destruct (session c) eqn:E; eauto. }
  simpl. exists c'. split; [reflexivity|]. split; [assumption|].
  intros q w.
  assert (∀ q, ∃ r, call q w c' [] = (Val r, c', [])) as Hcall
    by (intros q'; apply (call_without_session q' w c' Hs)).
  destruct q as [category mood time_based| |query limit|include_tip].
  - destruct (Hcall (Quote category mood time_based)) as [r Hr].
    exists r. unfold wrapper_call, wrapper_get_quote, with_client, _get_client.
    simpl in *. rewrite Hr. reflexivity.
  - destruct (Hcall Tip) as [r Hr].
    exists r. unfold wrapper_call, wrapper_get_tip, with_client, _get_client.
    simpl in *. rewrite Hr. reflexivity.
  - destruct (Hcall (Search query 5)) as [r Hr].
    exists r. unfold wrapper_call, wrapper_search, with_client, _get_client.
    simpl in *. rewrite Hr. reflexivity.
  - destruct (Hcall (Wisdom include_tip)) as [r Hr].
    exists r. unfold wrapper_call, wrapper_get_daily_wisdom, with_client, _get_client.
    simpl in *. rewrite Hr. reflexivity.
Qed.

End Queries.

(* ===================================================================== *)
(** ** Properties of the provider                                         *)
(* ===================================================================== *)

Module ProviderProperties.
Import Provider.

Lemma filter_twice {A} (f g : A -> bool) (l : list A) :
  List.filter g (List.filter f l) = List.filter (fun x => f x && g x) l.
Proof.
  induction l as [|x l IH]; [reflexivity|].
  simpl. destruct (f x); simpl; [destruct (g x)|]; rewrite IH; reflexivity.
Qed.

(** The loop over the filters keeps exactly the quotes that pass them all. *)
Lemma apply_filters_passes filters l :
  apply_filters filters l = List.filter (passes filters) l.
Proof.
  revert l. induction filters as [|[key v] rest IH]; intros l; simpl.
  - induction l as [|x l IHl]; [reflexivity|]. simpl. rewrite <- IHl. reflexivity.
  - rewrite IH. destruct (recognized key) eqn:Hkey.
    + rewrite filter_twice. apply filter_ext. intros q.
      unfold passes. simpl. rewrite Hkey. reflexivity.
    + apply filter_ext. intros q.
      unfold passes. simpl. rewrite Hkey. reflexivity.
Qed.

Lemma random_choice_member {A} draw (l : list A) :
  l ≠ [] -> ∃ x, random_choice draw l = Val x ∧ In x l.
Proof.
  intros Hl. unfold random_choice.
  destruct (nth_error l (draw mod length l)) as [x|] eqn:E.
  - exists x. split; [reflexivity|]. eapply nth_error_In, E.
  - apply nth_error_None in E.
    assert (length l ≠ 0) by (destruct l; [congruence|discriminate]).
    pose proof (Nat.mod_upper_bound draw (length l)). lia.
Qed.

(** What [get_random_quote] returns on a database that is not empty. *)
Lemma get_random_quote_spec db draw filters :
  quotes db ≠ [] ->
  ∃ q, get_random_quote db draw filters = Val q ∧ In q (quotes db) ∧
       (List.filter (passes filters) (quotes db) ≠ [] -> passes filters q = true).
Proof.
  intros Hdb. unfold get_random_quote. rewrite apply_filters_passes.
  destruct (List.filter (passes filters) (quotes db)) as [|q0 l] eqn:E.
  - destruct (random_choice_member draw (quotes db) Hdb) as (q & Hq & Hin).
    exists q. repeat split; [assumption..|congruence].
  - destruct (random_choice_member draw (q0 :: l)) as (q & Hq & Hin); [discriminate|].
    rewrite <- E in Hin. apply filter_In in Hin as [Hin Hpass].
    exists q. auto.
Qed.

(** C8. On a database that is not empty [get_random_quote] never raises: for
    any filters it returns a quote of the database. When some quote passes
    the recognized filters ([category], [time_of_day], [mood]; other keys are
    ignored) the returned quote passes them; when none does, the quote is
    chosen from the whole database. *)
Theorem get_random_quote_filters_or_falls_back db draw filters :
  quotes db ≠ [] ->
  ∃ q, get_random_quote db draw filters = Val q ∧ In q (quotes db) ∧
       ((∃ q', In q' (quotes db) ∧ passes filters q' = true) ->
        passes filters q = true) ∧
       ((∀ q', In q' (quotes db) -> passes filters q' = false) ->
        get_random_quote db draw filters = random_choice draw (quotes db)).
Proof.
  intros Hdb.
  destruct (get_random_quote_spec db draw filters Hdb) as (q & Hq & Hin & Hpass).
  exists q. split; [assumption|]. split; [assumption|]. split.
  - intros (q' & Hin' & Hq'). apply Hpass. intros E.
    assert (In q' (List.filter (passes filters) (quotes db))) as Hf
      by (apply filter_In; auto).
    rewrite E in Hf. destruct Hf.
  - intros Hnone. unfold get_random_quote. rewrite apply_filters_passes.
    destruct (List.filter (passes filters) (quotes db)) as [|q0 l] eqn:E;
      [reflexivity|].
    assert (In q0 (List.filter (passes filters) (quotes db))) as Hf
      by (rewrite E; left; reflexivity).
    apply filter_In in Hf as [Hin0 Hp0]. rewrite Hnone in Hp0 by assumption.
    discriminate.
Qed.

Lemma passes_recognized key s rest q :
  recognized key = true ->
  passes ((key, VStr s) :: rest) q = true ->
  getattr q key = s ∧ passes rest q = true.
Proof.
  intros Hkey H.
  change (implb (recognized key) (String.eqb s (getattr q key)) && passes rest q
          = true) in H.
  rewrite Hkey in H. apply andb_prop in H as [Hs Hrest].
  apply String.eqb_eq in Hs. auto.
Qed.

Lemma passes_time_of_day f q :
  passes [("time_of_day", VStr f)] q = true -> time_of_day q = f.
Proof.
  intros H. apply passes_recognized in H as [H _]; [exact H|reflexivity].
Qed.

Lemma sleep_db_has_each_time_of_day h :
  List.filter (passes [("time_of_day", VStr (time_filter h))]) (quotes sleep_db) ≠ [].
Proof.
  unfold time_filter.
  destruct ((6 <=? h)%Z && (h <? 18)%Z); [discriminate|].
  destruct ((18 <=? h)%Z && (h <? 22)%Z); discriminate.
Qed.

(** C10. On the provider's database [get_quote_by_time] returns, for every
    clock and every draw, a quote whose [time_of_day] is ["morning"] when the
    hour h satisfies 6 <= h < 18 (the afternoon included), ["evening"] when
    18 <= h < 22, and ["night"] at every other hour. *)
Theorem get_quote_by_time_partition draw now :
  ∃ q, get_quote_by_time sleep_db draw now = Val q ∧ In q (quotes sleep_db) ∧
       ((6 <= dt_hour now < 18)%Z -> time_of_day q = "morning") ∧
       ((18 <= dt_hour now < 22)%Z -> time_of_day q = "evening") ∧
       ((dt_hour now < 6 ∨ 22 <= dt_hour now)%Z -> time_of_day q = "night").
Proof.
  unfold get_quote_by_time.
  destruct (get_random_quote_spec sleep_db draw
              [("time_of_day", VStr (time_filter (dt_hour now)))])
    as (q & Hq & Hin & Hpass); [discriminate|].
  specialize (Hpass (sleep_db_has_each_time_of_day _)).
  apply passes_time_of_day in Hpass.
  exists q. split; [assumption|]. split; [assumption|].
  rewrite Hpass. unfold time_filter.
  repeat split; intros Hh.
  - replace ((6 <=? dt_hour now)%Z && (dt_hour now <? 18)%Z) with true
      by (symmetry; apply andb_true_iff; split; [apply Z.leb_le|apply Z.ltb_lt]; lia).
    reflexivity.
  - replace ((6 <=? dt_hour now)%Z && (dt_hour now <? 18)%Z) with false
      by (symmetry; apply andb_false_iff; right; apply Z.ltb_ge; lia).
    replace ((18 <=? dt_hour now)%Z && (dt_hour now <? 22)%Z) with true
      by (symmetry; apply andb_true_iff; split; [apply Z.leb_le|apply Z.ltb_lt]; lia).
    reflexivity.
  - replace ((6 <=? dt_hour now)%Z && (dt_hour now <? 18)%Z) with false
      by (symmetry; apply andb_false_iff;
          destruct Hh; [left; apply Z.leb_gt|right; apply Z.ltb_ge]; lia).
    replace ((18 <=? dt_hour now)%Z && (dt_hour now <? 22)%Z) with false
      by (symmetry; apply andb_false_iff;
          destruct Hh; [left; apply Z.leb_gt|right; apply Z.ltb_ge]; lia).
    reflexivity.
Qed.

End ProviderProperties.

(* --------------------------------------------------------------------- *)
(** *** Further properties of the provider                                *)
(* --------------------------------------------------------------------- *)

Module ProviderExtras.
Import Provider ProviderProperties.

Section Endpoints.

Variable str_lower : string -> string.
Variable str_exn : exn -> string.

Lemma slice_to_5 {A} (l : list A) : slice_to 5 l = firstn 5 l.
Proof. reflexivity. Qed.

Lemma slice_to_prefix {A} (stop : Z) (l : list A) :
  ∃ n, slice_to stop l = firstn n l ∧ ((0 <= stop)%Z -> n = Z.to_nat stop).
Proof.
  unfold slice_to. destruct (0 <=? stop)%Z eqn:E.
  - eauto.
  - eexists. split; [reflexivity|]. apply Z.leb_gt in E. lia.
Qed.


Lemma search_quotes_at_most_five query :
  length (search_quotes str_lower sleep_db query) <= 5.
Proof.
  unfold search_quotes. rewrite slice_to_5, length_take. lia.
Qed.


Lemma filter_all {A} (f : A -> bool) (l : list A) :
  (∀ x, f x = true) -> List.filter f l = l.
Proof.
  intros Hf. induction l as [|x l IH]; [reflexivity|].
  simpl. rewrite Hf, IH. reflexivity.
Qed.

Lemma empty_is_substring s : is_substring EmptyString s = true.
Proof. destruct s; reflexivity. Qed.

(** X16. The empty query matches every quote: as long as lower-casing the
    empty string gives the empty string, searching for it returns the first
    five quotes of the database. *)
Theorem search_for_empty_query db :
  str_lower EmptyString = EmptyString ->
  search_quotes str_lower db EmptyString = firstn 5 (quotes db).
Proof.
  intros Hlow. unfold search_quotes. rewrite slice_to_5, Hlow.
  rewrite filter_all; [reflexivity|].
  intros q. unfold quote_matches. rewrite empty_is_substring. reflexivity.
Qed.

(** X17. The search endpoint always answers with status 200; its
    [total_found] is the number of quotes in its [results], which are taken
    from the front of the database search: never more than five, never more
    than a non-negative [limit], and the whole search result once [limit] is
    five or more. *)
Theorem search_api_counts_what_it_returns query limit timestamp :
  ∃ results,
    search_quotes_api str_lower str_exn query limit timestamp
    = Response 200 (Some (VDict [
        ("query", VStr query);
        ("results", VList (map asdict results));
        ("total_found", VInt (Z.of_nat (length results)));
        ("timestamp", VStr timestamp) ])) ∧
    (∃ rest, search_quotes str_lower sleep_db query = (results ++ rest)%list) ∧
    length results <= 5 ∧
    ((0 <= limit)%Z -> length results <= Z.to_nat limit) ∧
    ((5 <= limit)%Z -> results = search_quotes str_lower sleep_db query).
Proof.
  exists (slice_to limit (search_quotes str_lower sleep_db query)).
  split; [reflexivity|].
  destruct (slice_to_prefix limit (search_quotes str_lower sleep_db query))
    as (n & -> & Hn).
  pose proof (search_quotes_at_most_five query) as Hfive.
  split; [exists (skipn n (search_quotes str_lower sleep_db query));
          symmetry; apply firstn_skipn|].
  rewrite length_take. split; [lia|]. split.
  - intros H. rewrite (Hn H). lia.
  - intros H. rewrite (Hn ltac:(lia)). apply take_ge. lia.
Qed.

End Endpoints.

(** **** Filters *)

Lemma passes_permutation filters filters' q :
  Permutation filters filters' -> passes filters q = passes filters' q.
Proof.
  unfold passes. induction 1 as [|kv l l' _ IH|kv kv' l|l l' l'' _ IH1 _ IH2]; simpl.
  - reflexivity.
  - rewrite IH. reflexivity.
  - rewrite !andb_assoc. f_equal. apply andb_comm.
  - congruence.
Qed.

(** X18. The order in which the keyword filters reach [get_random_quote]
    does not matter: for the same draw, permuted filters select the same
    quote (or raise the same error). *)
Theorem filter_order_is_irrelevant db draw filters filters' :
  Permutation filters filters' ->
  get_random_quote db draw filters = get_random_quote db draw filters'.
Proof.
  intros Hperm. unfold get_random_quote. rewrite !apply_filters_passes.
  rewrite (filter_ext (passes filters) (passes filters'));
    [reflexivity|].
  intros q. apply passes_permutation, Hperm.
Qed.



(** The tip is always a quote of the category [sleep_hygiene]. *)
Lemma sleep_tip_category draw :
  ∃ q, get_sleep_tip sleep_db draw = Val q ∧ In q (quotes sleep_db) ∧
       category q = "sleep_hygiene".
Proof.
  unfold get_sleep_tip.
  destruct (get_random_quote_spec sleep_db draw [("category", VStr "sleep_hygiene")])
    as (q & Hq & Hin & Hpass); [discriminate|].
  exists q. split; [assumption|]. split; [assumption|].
  apply (passes_recognized "category" "sleep_hygiene" [] q); [reflexivity|].
  apply Hpass. discriminate.
Qed.

Lemma quote_by_time_follows_clock draw now :
  ∃ q, get_quote_by_time sleep_db draw now = Val q ∧ In q (quotes sleep_db) ∧
       time_of_day q = time_filter (dt_hour now).
Proof.
  unfold get_quote_by_time.
  destruct (get_random_quote_spec sleep_db draw
              [("time_of_day", VStr (time_filter (dt_hour now)))])
    as (q & Hq & Hin & Hpass); [discriminate|].
  exists q. split; [assumption|]. split; [assumption|].
  apply passes_time_of_day, Hpass, sleep_db_has_each_time_of_day.
Qed.

Section Handlers.

Variable str_exn : exn -> string.

(** X20. The quote endpoint always answers with status 200 and a quote of
    the database. With [time_based] the category and mood parameters are
    ignored and the quote's [time_of_day] follows the clock; without it the
    quote satisfies the category and mood asked for whenever some quote of
    the database does, an empty parameter counting as absent. *)
Theorem quote_api_answers category mood time_based draw now timestamp :
  ∃ q,
    get_quote_api str_exn category mood time_based draw now timestamp
    = Response 200 (Some (VDict [("quote", asdict q); ("timestamp", VStr timestamp)])) ∧
    In q (quotes sleep_db) ∧
    (time_based = true ->
     time_of_day q = time_filter (dt_hour now) ∧
     get_quote_api str_exn category mood true draw now timestamp
     = get_quote_api str_exn None None true draw now timestamp) ∧
    (time_based = false ->
     (∃ q', In q' (quotes sleep_db) ∧ passes (api_filters category mood) q' = true) ->
     (truthy_opt category = true -> Some (Provider.category q) = category) ∧
     (truthy_opt mood = true -> Some (Provider.mood q) = mood)).
Proof.
  unfold get_quote_api. destruct time_based.
  - destruct (quote_by_time_follows_clock draw now) as (q & -> & Hin & Htime).
    exists q. repeat split; try assumption; discriminate.
  - destruct (get_random_quote_spec sleep_db draw (api_filters category mood))
      as (q & -> & Hin & Hpass); [discriminate|].
    exists q. split; [reflexivity|]. split; [assumption|].
    split; [discriminate|]. intros _ (q' & Hin' & Hq').
    assert (passes (api_filters category mood) q = true) as Hp.
    { apply Hpass. intros E.
      assert (In q' (List.filter (passes (api_filters category mood)) (quotes sleep_db)))
        as Hf by (apply filter_In; auto).
      rewrite E in Hf. destruct Hf. }
    clear Hpass Hq' Hin'. unfold api_filters in Hp. split.
    + intros Hc. rewrite Hc in Hp. destruct category as [cat|]; [|discriminate].
      cbn [app fmt_opt default] in Hp.
      apply passes_recognized in Hp as [Hcat _]; [|reflexivity].
      f_equal. exact Hcat.
    + intros Hm. rewrite Hm in Hp. destruct mood as [md|]; [|discriminate].
      destruct (truthy_opt category); cbn [app fmt_opt default] in Hp.
      * apply passes_recognized in Hp as [_ Hp]; [|reflexivity].
        apply passes_recognized in Hp as [Hmood _]; [|reflexivity].
        f_equal. exact Hmood.
      * apply passes_recognized in Hp as [Hmood _]; [|reflexivity].
        f_equal. exact Hmood.
Qed.

(** X21. The tip and the wisdom endpoints always answer with status 200.
    The tip is a quote of category [sleep_hygiene]; the daily quote's
    [time_of_day] follows the clock; the wisdom carries a [daily_tip], again
    of category [sleep_hygiene], exactly when [include_tip] is set. *)
Theorem tip_and_wisdom_api_answer include_tip draw_quote draw_tip now timestamp :
  ∃ q tip,
    In q (quotes sleep_db) ∧ time_of_day q = time_filter (dt_hour now) ∧
    In tip (quotes sleep_db) ∧ Provider.category tip = "sleep_hygiene" ∧
    get_tip_api str_exn draw_tip timestamp
    = Response 200 (Some (VDict [("tip", asdict tip); ("timestamp", VStr timestamp)])) ∧
    get_wisdom_api str_exn include_tip draw_quote draw_tip now timestamp
    = Response 200 (Some (VDict (
        [("daily_quote", asdict q); ("timestamp", VStr timestamp)] ++
        (if include_tip then [("daily_tip", asdict tip)] else [])))).
Proof.
  destruct (quote_by_time_follows_clock draw_quote now) as (q & Hq & Hin & Htime).
  destruct (sleep_tip_category draw_tip) as (tip & Htip & Hint & Hcat).
  exists q, tip. repeat (split; [assumption|]).
  unfold get_tip_api, get_wisdom_api. rewrite Hq, Htip.
  destruct include_tip; split; reflexivity.
Qed.

End Handlers.

End ProviderExtras.

(* --------------------------------------------------------------------- *)
(** *** The client in front of the provider                               *)
(* --------------------------------------------------------------------- *)

Section ClientAndProvider.

Variable str_title : string -> string.
Variable py_str : value -> string.
Variable str_exn : exn -> string.
Variable str_lower : string -> string.

Lemma render_results_asdict i qs message :
  ∃ m, render_results str_title py_str i (map Provider.asdict qs) message = Val m.
Proof.
  revert i message. induction qs as [|q qs IH]; intros i message.
  - eexists. reflexivity.
  - destruct (IH (S i)
        (message +:+ unlines [
           EmptyString;
           str_of_nat i +:+ ". " +:+ dq +:+ Provider.quote q +:+ dq;
           "   — " +:+ Provider.author q +:+ " | "
             +:+ str_title (replace_underscore (Provider.category q));
           EmptyString;
           EmptyString ])) as [m Hm].
    exists m. exact Hm.
Qed.

Lemma search_message_asdict query qs :
  ∃ m, search_message str_title py_str query (VList (map Provider.asdict qs)) = Val m.
Proof.
  destruct qs as [|q0 qs]; [eexists; reflexivity|].
  edestruct (render_results_asdict 1 (q0 :: qs)) as [m Hm].
  exists m. unfold search_message. simpl map. cbn [truthy negb]. exact Hm.
Qed.

Lemma format_search_steps query data results m total_found timestamp :
  getitem data "results" = Val results ->
  search_message str_title py_str query results = Val m ->
  getitem data "total_found" = Val total_found ->
  getitem data "timestamp" = Val timestamp ->
  format_search str_title py_str query data
  = Val (VDict [ ("success", VBool true);
                 ("message", VStr m);
                 ("results", results);
                 ("total_found", total_found);
                 ("source", VStr "remote_server");
                 ("timestamp", timestamp) ]).
Proof.
  intros Hres Hm Htot Hts. unfold format_search.
  rewrite Hres. simpl. rewrite Hm. simpl. rewrite Htot. simpl. rewrite Hts.
  reflexivity.
Qed.

(** Every body a handler of the provider sends can be formatted by the query
    whose endpoint it serves. *)
Lemma provider_answer_is_formatted q reply now' :
  provider_answer str_exn str_lower q reply ->
  ∃ data r,
    reply = Response 200 (Some data) ∧
    format_of str_title py_str q data now' = Val r.
Proof.
  intros [category mood time_based category' mood' time_based' draw now timestamp
         |draw timestamp
         |query limit query' limit' timestamp
         |include_tip include_tip' draw_quote draw_tip now timestamp].
  - unfold Provider.get_quote_api. destruct time_based'.
    + destruct (ProviderExtras.quote_by_time_follows_clock draw now)
        as (chosen & -> & _). eexists _, _. split; reflexivity.
    + destruct (ProviderProperties.get_random_quote_spec Provider.sleep_db draw
                  (Provider.api_filters category' mood'))
        as (chosen & -> & _); [discriminate|].
      eexists _, _. split; reflexivity.
  - unfold Provider.get_tip_api.
    destruct (ProviderExtras.sleep_tip_category draw) as (tip & -> & _).
    eexists _, _. split; reflexivity.
  - unfold Provider.search_quotes_api.
    set (results := slice_to limit' (Provider.search_quotes str_lower Provider.sleep_db query')).
    destruct (search_message_asdict query results) as [m Hm].
    eexists _, _. split; [reflexivity|].
    eapply format_search_steps; [reflexivity|exact Hm|reflexivity|reflexivity].
  - unfold Provider.get_wisdom_api.
    destruct (ProviderExtras.quote_by_time_follows_clock draw_quote now)
      as (chosen & -> & _).
    destruct include_tip'.
    + destruct (ProviderExtras.sleep_tip_category draw_tip) as (tip & -> & _).
      destruct include_tip; eexists _, _; split; reflexivity.
    + destruct include_tip; eexists _, _; split; reflexivity.
Qed.

(** X22. The client accepts whatever the provider's handlers send: when the
    reply to the request of a query is one that the provider's REST handler
    of the addressed endpoint produces, for any arguments of the handler, any
    draw of its random generator and any clock, a connected client whose
    cache does not answer returns a [success: True] dictionary from the
    source ['remote_server'], never the offline response. Whether a request
    reaches that handler is the routing of the web framework and is a premise
    here. *)
Theorem provider_answers_are_accepted q w c :
  is_connected c = true ->
  session c = true ->
  cache_hit q w c = None ->
  provider_answer str_exn str_lower q (net w (request_of q c)) ->
  ∃ r, result_of (run (call str_title py_str q) w c) = Val r ∧
       getitem r "success" = Val (VBool true) ∧
       getitem r "source" = Val (VStr "remote_server") ∧
       r ≠ _get_offline_response (kind q).
Proof.
  intros Hc Hs Hmiss Hnet.
  destruct (provider_answer_is_formatted q _ (clock w 1) Hnet)
    as (data & r & Hreply & Hfmt).
  rewrite run_call by assumption. unfold outcome.
  rewrite Hmiss, Hs, Hreply, Hfmt. simpl.
  destruct (format_of_ok _ _ _ _ _ _ Hfmt) as (_ & _ & Hsucc & Hsrc).
  exists r. repeat split; try assumption.
  intros ->. destruct (offline_response_ok q) as (_ & Hoff & _).
  rewrite Hoff in Hsucc. discriminate.
Qed.

(** X23. The [/mcp] endpoint never fails and never looks at [params]: with
    no [method], or the method [get_inspirational_quote], it answers with an
    unfiltered draw from the whole database; with [get_sleep_hygiene_tip],
    with a quote of category [sleep_hygiene]; with anything else, with an
    [error] entry naming the method. *)
Theorem mcp_endpoint_answers request draw :
  let method :=
    default (VStr "get_inspirational_quote") (dict_lookup "method" request) in
  (eq_str method "get_inspirational_quote" = true ->
   ∃ q, Provider.random_choice draw (Provider.quotes Provider.sleep_db) = Val q ∧
        mcp_endpoint py_str str_exn request draw
        = VDict [("result", Provider.asdict q)]) ∧
  (eq_str method "get_inspirational_quote" = false ->
   eq_str method "get_sleep_hygiene_tip" = true ->
   ∃ q, Provider.category q = "sleep_hygiene" ∧
        mcp_endpoint py_str str_exn request draw
        = VDict [("result", Provider.asdict q)]) ∧
  (eq_str method "get_inspirational_quote" = false ->
   eq_str method "get_sleep_hygiene_tip" = false ->
   mcp_endpoint py_str str_exn request draw
   = VDict [("error", VStr ("Método desconocido: " +:+ fmt py_str method))]).
Proof.
  intros method. unfold mcp_endpoint. fold method.
  repeat split.
  - intros ->.
    destruct (ProviderProperties.random_choice_member draw
                (Provider.quotes Provider.sleep_db)) as (q & Hq & _); [discriminate|].
    exists q. split; [exact Hq|].
    change (Provider.get_random_quote Provider.sleep_db draw [])
      with (Provider.random_choice draw (Provider.quotes Provider.sleep_db)).
    rewrite Hq. reflexivity.
  - intros -> ->.
    destruct (ProviderExtras.sleep_tip_category draw) as (q & Hq & _ & Hcat).
    exists q. split; [exact Hcat|]. rewrite Hq. reflexivity.
  - intros -> ->. reflexivity.
Qed.

End ClientAndProvider.

(* ===================================================================== *)
(** ** The properties at concrete inputs                                  *)
(* ===================================================================== *)

Import Sample.

Local Abbreviation ask := (call ascii_title simple_str).
Local Abbreviation localhost := "http://localhost:8000".
Local Abbreviation onrender := "https://sleep-quotes-mcp.onrender.com".

(** The sample client is bound to the local provider, with an empty cache. *)
Lemma connected_client_state :
  connected_client = mkClient localhost default_fallback_urls true true ∅ 300.
Proof. vm_compute. reflexivity. Qed.

Lemma connected_client_reachable :
  reachable ascii_title simple_str connected_client.
Proof.
  change connected_client
    with (client_of (run (perform ascii_title simple_str Enter)
                         (local_server 1000 0) (new_client None))).
  apply reachable_perform, reachable_new.
Qed.

(** *** Discovery *)

(** C2, the claim as stated fails: the client built with the default URL has
    that URL twice among its candidates; entering its context while only the
    local provider is up, the discovery probes that URL twice before it binds
    to the local provider. *)
Lemma default_url_is_probed_twice :
  let w := local_server 1000 0 in
  let entered := run aenter w fresh_client in
  In localhost (candidates fresh_client) ∧ healthy w localhost = true ∧
  server_url (client_of entered) = localhost ∧
  requests_of entered
    = map health_request
        [ onrender; onrender; "https://sleep-quotes-mcp.railway.app";
          "https://sleep-quotes-mcp.fly.dev"; localhost ] ∧
  ¬ NoDup (requests_of entered).
Proof.
  split; [simpl; auto 10|]. split; [reflexivity|]. split; [reflexivity|].
  split; [reflexivity|].
  intros H. vm_compute in H. apply NoDup_cons in H as [Hfirst _].
  apply Hfirst. left.
Qed.

(** The discovery of the default client when only the local provider is up. *)
Lemma test_connection_binds_first_healthy_witness :
  let c := set_session true (new_client None) in
  ∃ pre url post,
    candidates c = (pre ++ url :: post)%list ∧
    Forall (λ u, healthy (local_server 1000 0) u = false) pre ∧
    healthy (local_server 1000 0) url = true ∧
    run test_connection (local_server 1000 0) c =
    (Val true, bound_to url c, map health_request (pre ++ [url])).
Proof.
  intros c.
  apply (test_connection_binds_first_healthy (local_server 1000 0) c).
  - reflexivity.
  - exists localhost. split; [simpl; auto 10|reflexivity].
Defined.

(** Discovery with no server anywhere, then a query while the provider is
    back: the client stays offline. *)
Lemma no_healthy_candidate_goes_offline_witness :
  let c' := client_of (run test_connection nowhere (set_session true fresh_client)) in
  is_connected c' = false ∧
  run (ask (Wisdom true)) (local_server 1000 0) c'
    = (Val (_get_offline_response "wisdom"), c', []).
Proof.
  intros c'.
  destruct (no_healthy_candidate_goes_offline ascii_title simple_str nowhere
              (set_session true fresh_client)) as (_ & Hoff & Hcalls).
  - repeat constructor.
  - split; [exact Hoff|]. apply (Hcalls (Wisdom true)).
Defined.

(** *** The cache *)



(** C4, the claim as stated fails for the search: two identical searches one
    second apart, the server answering with another quote the second time,
    return different dictionaries, and the second one is fetched. *)
Lemma repeated_search_is_refetched :
  let q := Search "paz" 5 in
  let first := run (ask q) (local_server 1000 0) connected_client in
  let second := run (ask q) (local_server 1001 5) (client_of first) in
  (∃ r, result_of first = Val r ∧ getitem r "success" = Val (VBool true)) ∧
  result_of second ≠ result_of first ∧
  requests_of second = [request_of q connected_client].
Proof.
  vm_compute. split; [eexists; split; reflexivity|].
  split; [discriminate|reflexivity].
Qed.

(** The same quote query 299 seconds apart, the server serving another quote
    by then. *)
Lemma cache_idempotence_witness :
  let q := Quote (Some "mindfulness") None false in
  let first := run (ask q) (local_server 1000 1) connected_client in
  let second := run (ask q) (local_server 1299 8) (client_of first) in
  ∃ r, result_of first = Val r ∧ result_of second = Val r ∧
       requests_of second = [] ∧ client_of second = client_of first.
Proof.
  intros q first second.
  destruct (cache_idempotence ascii_title simple_str q
              (local_server 1000 1) (local_server 1299 8) connected_client
              (VDict [("quote", nth_quote 1); ("timestamp", iso_time)])
              (match format_quote ascii_title simple_str
                       (VDict [("quote", nth_quote 1); ("timestamp", iso_time)])
                       (clock_at 1000 1)
               with Val r => r | Raise _ => VNone end))
    as (Hfirst & Hsecond); try reflexivity.
  eexists. split; [exact Hfirst|]. apply Hsecond. reflexivity.
Defined.

(** C3, the code at the failing input. The daily wisdom is fetched and stored
    at second 1000 with the TTL back at 300; asked again on the same day 299
    seconds later it is served from the cache, but 300 seconds later (well
    inside the hour the widened TTL was meant to give) the entry counts as
    expired and the wisdom is fetched again, with another content. *)
Theorem daily_wisdom_entry_expires_with_normal_ttl :
  let q := Wisdom true in
  let first := run (ask q) (local_server 1000 0) connected_client in
  let at_299 := run (ask q) (local_server 1299 5) (client_of first) in
  let at_300 := run (ask q) (local_server 1300 5) (client_of first) in
  cache_ttl (client_of first) = 300%Z ∧
  (∃ e, cache (client_of first) !! "daily_wisdom_2025-01-01_True" = Some e ∧
        Val (entry_data e) = result_of first ∧ entry_timestamp e = 1000%Z) ∧
  result_of at_299 = result_of first ∧ requests_of at_299 = [] ∧
  result_of at_300 ≠ result_of first ∧
  requests_of at_300 = [request_of q connected_client].
Proof.
  vm_compute. split; [reflexivity|]. split.
  - eexists. split; [reflexivity|]. split; reflexivity.
  - split; [reflexivity|]. split; [reflexivity|]. split; [discriminate|reflexivity].
Qed.

(** C6, the claim as stated fails for a malformed body on which the
    formatting does not raise: a tip whose text is a number, whose author is
    null and whose time stamp is null is returned as a success, not as the
    offline response, and is stored in the cache. *)
Lemma wrongly_typed_body_is_cached :
  let body := VDict [ ("tip", VDict [("quote", VInt 5); ("author", VNone)]);
                      ("timestamp", VNone) ] in
  let done := run (ask Tip) (answering (Response 200 (Some body)) 1000)
                  connected_client in
  is_connected connected_client = true ∧
  cache_hit Tip (answering (Response 200 (Some body)) 1000) connected_client = None ∧
  (∃ r, result_of done = Val r ∧
        getitem r "success" = Val (VBool true) ∧
        getitem r "tip_data" = Val (VDict [("quote", VInt 5); ("author", VNone)]) ∧
        r ≠ _get_offline_response "tip" ∧
        ∃ e, cache (client_of done) !! "sleep_tip" = Some e ∧ entry_data e = r).
Proof.
  vm_compute. split; [reflexivity|]. split; [reflexivity|].
  eexists. split; [reflexivity|]. split; [reflexivity|]. split; [reflexivity|].
  split; [discriminate|]. eexists. split; reflexivity.
Qed.

(** A tip query answered with status 200 and a body that has no [tip]. *)
Lemma failed_request_gives_offline_response_witness :
  let q := Tip in
  let w := answering (Response 200 (Some (VDict [("timestamp", iso_time)]))) 1000 in
  run (ask q) w connected_client
    = (Val (_get_offline_response "tip"), connected_client,
       [request_of q connected_client]) ∧
  getitem (_get_offline_response "tip") "success" = Val (VBool false).
Proof.
  intros q w.
  refine (proj1 (proj2 (failed_request_gives_offline_response
                          ascii_title simple_str q w connected_client _ _)) _).
  - reflexivity.
  - reflexivity.
  - apply (fails_payload _ _ _ (VDict [("timestamp", iso_time)]));
      reflexivity.
Defined.

(** The search for [zzz], which matches nothing. *)
Lemma empty_search_is_a_success_witness :
  run (search_quotes ascii_title simple_str "zzz" 5) (local_server 1000 0)
      connected_client
  = (Val (VDict [ ("success", VBool true);
                  ("message", VStr (unlines [
                     "🔍 BÚSQUEDA: " +:+ dq +:+ "zzz" +:+ dq;
                     EmptyString;
                     "❌ No se encontraron citas que coincidan con tu búsqueda.";
                     EmptyString;
                     "💡 Intenta con términos como: sueño, descanso, noche, relajación, paz" ]));
                  ("results", VList []);
                  ("total_found", VInt 0);
                  ("source", VStr "remote_server");
                  ("timestamp", iso_time) ]),
     connected_client,
     [request_of (Search "zzz" 5) connected_client]).
Proof.
  apply (empty_search_is_a_success ascii_title simple_str "zzz" 5
           (local_server 1000 0) connected_client
           (VDict [("query", VStr "zzz"); ("results", VList []);
                   ("total_found", VInt 0); ("timestamp", iso_time)])
           (VInt 0) iso_time); reflexivity.
Defined.

(** A query on the connected sample client. *)
Lemma returned_results_satisfy_invariant_witness :
  ∃ r, result_of (run (ask (Quote None (Some "calm") true))
                      (local_server 1000 2) connected_client) = Val r ∧
       result_ok r.
Proof.
  apply (returned_results_satisfy_invariant ascii_title simple_str
           connected_client).
  exact connected_client_reachable.
Defined.

(** *** The provider *)

(** Two filters on the provider's database. *)
Lemma get_random_quote_filters_or_falls_back_witness :
  ∃ q, Provider.get_random_quote Provider.sleep_db 7
         [("category", VStr "sleep_hygiene"); ("mood", VStr "educational")] = Val q ∧
       Provider.category q = "sleep_hygiene" ∧ Provider.mood q = "educational".
Proof.
  destruct (ProviderProperties.get_random_quote_filters_or_falls_back
              Provider.sleep_db 7
              [("category", VStr "sleep_hygiene"); ("mood", VStr "educational")])
    as (q & Hq & _ & Hpass & _); [discriminate|].
  exists q. split; [exact Hq|].
  assert (Provider.passes
            [("category", VStr "sleep_hygiene"); ("mood", VStr "educational")] q
          = true) as Hp.
  { apply Hpass. exists (nth 9 Provider.initial_quotes q).
    split; [simpl; auto 20|reflexivity]. }
  apply ProviderProperties.passes_recognized in Hp as [Hc Hp]; [|reflexivity].
  apply ProviderProperties.passes_recognized in Hp as [Hm _]; [|reflexivity].
  split; assumption.
Defined.

(** Three in the afternoon: a morning quote. *)
Lemma get_quote_by_time_partition_witness :
  ∃ q, Provider.get_quote_by_time Provider.sleep_db 4
         (mkDateTime 1000 15 (fun _ => EmptyString)) = Val q ∧
       Provider.time_of_day q = "morning".
Proof.
  destruct (ProviderProperties.get_quote_by_time_partition 4
              (mkDateTime 1000 15 (fun _ => EmptyString)))
    as (q & Hq & _ & Hmorning & _).
  exists q. split; [exact Hq|]. apply Hmorning. simpl. lia.
Defined.

(** *** The further properties at concrete inputs *)

Local Abbreviation tip_cached :=
  (client_of (run (ask Tip) (local_server 1000 0) connected_client)).

Lemma tip_cached_reachable : reachable ascii_title simple_str tip_cached.
Proof.
  apply (reachable_perform ascii_title simple_str connected_client (Ask Tip)).
  exact connected_client_reachable.
Qed.

(** A cached tip survives a later wisdom query. *)
Lemma cache_never_shrinks_witness :
  is_Some (cache (client_of (run (ask (Wisdom true)) (local_server 1400 2) tip_cached))
           !! "sleep_tip").
Proof.
  apply (cache_never_shrinks ascii_title simple_str (Ask (Wisdom true))
           (local_server 1400 2) tip_cached "sleep_tip").
  eexists. reflexivity.
Defined.

(** The TTL after a wisdom query on a client that holds a tip. *)
Lemma reachable_cache_ttl_witness :
  cache_ttl (client_of (run (ask (Wisdom true)) (local_server 1400 2) tip_cached))
  = 300%Z.
Proof.
  apply (reachable_cache_ttl ascii_title simple_str).
  apply (reachable_perform ascii_title simple_str tip_cached (Ask (Wisdom true))).
  exact tip_cached_reachable.
Defined.

(** The entry of the cached tip. *)
Lemma reachable_cache_holds_successes_witness :
  ∃ e, cache tip_cached !! "sleep_tip" = Some e ∧
       getitem (entry_data e) "success" = Val (VBool true) ∧
       getitem (entry_data e) "source" = Val (VStr "remote_server").
Proof.
  eexists. split; [reflexivity|].
  eapply (reachable_cache_holds_successes ascii_title simple_str tip_cached "sleep_tip").
  - exact tip_cached_reachable.
  - reflexivity.
Defined.

(** The tip cached at second 1000 is asked for again at second 1300. *)
Lemma stale_entry_is_refetched_witness :
  requests_of (run (ask Tip) (local_server 1300 4) tip_cached)
  = [request_of Tip tip_cached].
Proof.
  apply (stale_entry_is_refetched ascii_title simple_str Tip (local_server 1300 4)
           tip_cached "sleep_tip"); try reflexivity.
  intros e He. vm_compute in He. injection He as <-. vm_compute. discriminate.
Defined.

(** The quote for category [sleep_hygiene] and mood [calm], then the quote
    for category [sleep] and mood [hygiene_calm]. *)
Lemma colliding_quote_queries_share_entry_witness :
  let first := run (ask (Quote (Some "sleep_hygiene") (Some "calm") false))
                   (local_server 1000 1) connected_client in
  ∃ r, result_of first = Val r ∧
       run (ask (Quote (Some "sleep") (Some "hygiene_calm") false))
           (local_server 1100 8) (client_of first)
       = (Val r, client_of first, []).
Proof.
  eexists.
  apply (colliding_quote_queries_share_entry ascii_title simple_str
           "sleep" "hygiene" "calm" false
           (local_server 1000 1) (local_server 1100 8) connected_client
           (VDict [("quote", nth_quote 1); ("timestamp", iso_time)]));
    reflexivity.
Defined.

(** The wisdom fetched at 23:59:50 and asked again twenty seconds later. *)
Lemma daily_wisdom_is_refetched_on_a_new_day_witness :
  let first := run (ask (Wisdom true)) (local_server 1000 0) connected_client in
  requests_of (run (ask (Wisdom true)) (local_server_next_day 1020 0) (client_of first))
  = [request_of (Wisdom true) connected_client].
Proof.
  intros first.
  refine (proj2 (daily_wisdom_is_refetched_on_a_new_day ascii_title simple_str true
                   (local_server 1000 0) (local_server_next_day 1020 0) connected_client
                   (VDict [("daily_quote", nth_quote 0); ("daily_tip", nth_quote 3);
                           ("timestamp", iso_time)])
                   _ _ _ _ _ _ _ _));
    try reflexivity.
  discriminate.
Defined.

(** The default client with no server anywhere. *)
Lemma failed_discovery_probes_every_candidate_witness :
  run test_connection nowhere (set_session true fresh_client)
  = (Val false, set_is_connected false (set_session true fresh_client),
     map health_request
       [ onrender; onrender; "https://sleep-quotes-mcp.railway.app";
         "https://sleep-quotes-mcp.fly.dev"; localhost ]).
Proof.
  apply (failed_discovery_probes_every_candidate nowhere (set_session true fresh_client)).
  - reflexivity.
  - repeat constructor.
Defined.

(** Discovery on a client that was never entered, the local provider up. *)
Lemma discovery_without_session_fails_witness :
  run test_connection (local_server 1000 0) fresh_client
  = (Val false, set_is_connected false fresh_client, []).
Proof.
  apply (discovery_without_session_fails (local_server 1000 0) fresh_client).
  reflexivity.
Defined.

(** Discovery on the connected sample client. *)
Lemma repeated_discovery_is_stable_witness :
  let c1 := client_of (run test_connection (local_server 1000 0)
                           (set_session true fresh_client)) in
  run test_connection (local_server 1000 0) c1
  = (Val true, c1, [health_request (server_url c1)]).
Proof.
  apply (repeated_discovery_is_stable (local_server 1000 0)
           (set_session true fresh_client)).
  - reflexivity.
  - exists localhost. split; [simpl; auto 10|reflexivity].
Defined.

(** A wrapper first used with no server anywhere, then with the provider up. *)
Lemma wrapper_never_reconnects_witness :
  let s := (wrapper_call ascii_title simple_str Tip nowhere (new_wrapper None) []).1.2 in
  wrapper_call ascii_title simple_str (Wisdom true) (local_server 1000 0) s []
  = (Val (_get_offline_response "wisdom"), s, []) ∧
  ∃ r, wrapper_status exn_name (local_server 1000 0) s []
       = (Val r, s, [mkRequest "https://sleep-quotes-mcp.onrender.com/" []]).
Proof.
  intros s.
  destruct (wrapper_never_reconnects ascii_title simple_str exn_name None nowhere Tip)
    as (_ & Hquery & Hstatus).
  - repeat constructor.
  - split.
    + apply (Hquery (Wisdom true) (local_server 1000 0)).
    + apply (Hstatus (local_server 1000 0)).
Defined.

(** A wrapper holding the connected sample client, closed, then asked. *)
Lemma closed_wrapper_sends_nothing_witness :
  let s' := (wrapper_close (local_server 1000 0)
               (mkWrapper None (Some connected_client)) []).1.2 in
  ∃ r, wrapper_call ascii_title simple_str Tip (local_server 1000 0) s' []
       = (Val r, s', []).
Proof.
  intros s'.
  destruct (closed_wrapper_sends_nothing ascii_title simple_str (local_server 1000 0)
              (mkWrapper None (Some connected_client)) connected_client eq_refl)
    as (c' & _ & _ & H).
  apply (H Tip (local_server 1000 0)).
Defined.

(** The empty query on the provider's database. *)
Lemma search_for_empty_query_witness :
  Provider.search_quotes ascii_lower Provider.sleep_db EmptyString
  = firstn 5 Provider.initial_quotes.
Proof.
  apply (ProviderExtras.search_for_empty_query ascii_lower Provider.sleep_db).
  reflexivity.
Defined.

(** Mood before category, or category before mood. *)
Lemma filter_order_is_irrelevant_witness :
  Provider.get_random_quote Provider.sleep_db 7
    [("mood", VStr "educational"); ("category", VStr "sleep_hygiene")]
  = Provider.get_random_quote Provider.sleep_db 7
      [("category", VStr "sleep_hygiene"); ("mood", VStr "educational")].
Proof.
  apply ProviderExtras.filter_order_is_irrelevant. apply perm_swap.
Defined.

(** A search for [noche?x], which reaches the provider's handler as a search
    for [noche]. *)
Lemma provider_answers_are_accepted_witness :
  let q := Search "noche?x" 3 in
  let w := answering (Provider.search_quotes_api ascii_lower exn_name "noche" 3
                        "2025-01-01T08:00:00") 1000 in
  ∃ r, result_of (run (ask q) w connected_client) = Val r ∧
       getitem r "success" = Val (VBool true) ∧
       getitem r "source" = Val (VStr "remote_server") ∧
       r ≠ _get_offline_response "search".
Proof.
  intros q w.
  apply (provider_answers_are_accepted ascii_title simple_str exn_name ascii_lower
           q w connected_client); try reflexivity.
  apply (answer_search exn_name ascii_lower "noche?x" 3 "noche" 3
           "2025-01-01T08:00:00").
Defined.
